(** * Azure IoT thermometer sample: the application controller of
      Samples/AzureIoT/common/main.c

    The globals of main.c become one record, every handler becomes a
    computation in a small monad that threads the globals, reads the
    answers of the external functions from an environment and appends
    every external call to a trace.  The [float] arithmetic of the
    simulated temperature is IEEE 754 binary32, through the Standard
    Library's [SpecFloat]. *)

From Stdlib Require Import ZArith List String Bool Lia QArith Lqa.
From Stdlib Require Import Floats.SpecFloat.
Import ListNotations.
Local Open Scope string_scope.
Local Open Scope list_scope.
Local Open Scope Z_scope.

(** ** C [float]: IEEE 754 binary32 *)

Module F32.

Definition prec : Z := 24.
Definition emax : Z := 128.

Definition float : Type := spec_float.

(** [(float)n] for an [int] n, and the literals of main.c. *)
Definition of_int (n : Z) : float := binary_normalize prec emax n 0 false.

Definition add : float -> float -> float := SFadd prec emax.
Definition sub : float -> float -> float := SFsub prec emax.
Definition div : float -> float -> float := SFdiv prec emax.
Definition leb : float -> float -> bool := SFleb.
Definition ltb : float -> float -> bool := SFltb.

Definition is_finite (x : float) : bool :=
  match x with
  | S754_zero _ | S754_finite _ _ _ => true
  | _ => false
  end.

(** The exact rational value of a finite float (0 for the others). *)
Definition to_Q (x : float) : Q :=
  match x with
  | S754_finite s m e =>
      let v := match e with
               | Z0 => inject_Z (Zpos m)
               | Zpos p => inject_Z (Zpos m * 2 ^ Zpos p)
               | Zneg p => Qmake (Zpos m) (2 ^ p)
               end in
      if s then Qopp v else v
  | _ => 0%Q
  end.

End F32.

(** ** Types declared in headers outside main.c *)

(** Modelled from the spec: cloud.h is not among the sources.  main.c
    names exactly these three enumerators (CloudResultToString), and the
    channel contract lists the results Ok, NoNetwork, OtherFailure. *)
Inductive Cloud_Result : Type :=
| Cloud_Result_OK
| Cloud_Result_NoNetwork
| Cloud_Result_OtherFailure.

(** Modelled from the spec: exitcodes.h is not among the sources.  These
    are the enumerators main.c names; [ExitCode_Other] stands for the
    enumerators that only the other modules (user interface, cloud,
    options) produce.  Exit statuses are distinct per cause and
    [ExitCode_Success] is the graceful one. *)
Inductive ExitCode : Type :=
| ExitCode_Success
| ExitCode_TermHandler_SigTerm
| ExitCode_Main_EventLoopFail
| ExitCode_TelemetryTimer_Consume
| ExitCode_Init_EventLoop
| ExitCode_Init_TelemetryTimer
| ExitCode_Init_OpenMaster
| ExitCode_Init_SetBusSpeed
| ExitCode_Init_SetTimeout
| ExitCode_Init_SetDefaultTarget
| ExitCode_Other (n : nat).

(** Modelled from the spec: user_interface.h is not among the sources;
    main.c distinguishes buttons A and B and ignores any other value. *)
Inductive UserInterface_Button : Type :=
| UserInterface_Button_A
| UserInterface_Button_B
| UserInterface_Button_Other (n : nat).

Definition Cloud_Result_eqb (a b : Cloud_Result) : bool :=
  match a, b with
  | Cloud_Result_OK, Cloud_Result_OK
  | Cloud_Result_NoNetwork, Cloud_Result_NoNetwork
  | Cloud_Result_OtherFailure, Cloud_Result_OtherFailure => true
  | _, _ => false
  end.

Definition ExitCode_eqb (a b : ExitCode) : bool :=
  match a, b with
  | ExitCode_Success, ExitCode_Success
  | ExitCode_TermHandler_SigTerm, ExitCode_TermHandler_SigTerm
  | ExitCode_Main_EventLoopFail, ExitCode_Main_EventLoopFail
  | ExitCode_TelemetryTimer_Consume, ExitCode_TelemetryTimer_Consume
  | ExitCode_Init_EventLoop, ExitCode_Init_EventLoop
  | ExitCode_Init_TelemetryTimer, ExitCode_Init_TelemetryTimer
  | ExitCode_Init_OpenMaster, ExitCode_Init_OpenMaster
  | ExitCode_Init_SetBusSpeed, ExitCode_Init_SetBusSpeed
  | ExitCode_Init_SetTimeout, ExitCode_Init_SetTimeout
  | ExitCode_Init_SetDefaultTarget, ExitCode_Init_SetDefaultTarget => true
  | ExitCode_Other n, ExitCode_Other m => Nat.eqb n m
  | _, _ => false
  end.

(** ** The globals of main.c *)

(** Pointers are integers with 0 for NULL; [temperature] is the field of
    the function-static [telemetry] of TelemetryTimerCallbackHandler. *)
Record Globals : Type := mkGlobals {
  exitCode : ExitCode;
  i2cFd : Z;
  eventLoop : Z;
  telemetryTimer : Z;
  isConnected : bool;
  telemetryUploadEnabled : bool;
  temperature : F32.float
}.

Definition NULL : Z := 0.

Definition serialNumber : string := "TEMPMON-01234".

(** The static initialisers. *)
Definition initial_globals : Globals :=
  {| exitCode := ExitCode_Success;
     i2cFd := -1;
     eventLoop := NULL;
     telemetryTimer := NULL;
     isConnected := false;
     telemetryUploadEnabled := false;
     temperature := F32.of_int 50 |}.

(** ** External calls and their answers *)

(** An argument of a Log_Debug call after the format string. *)
Inductive LogArg : Type :=
| LogStr (s : string)
| LogInt (n : Z)
| LogStrerror (err : Z).

(** One external call made by main.c, with its arguments. *)
Inductive Call : Type :=
| Log_Debug (fmt : string) (args : list LogArg)
| C_rand
| C_time
| C_close (fd : Z)
| C_sigaction_SIGTERM
| ConsumeEventLoopTimerEvent (timer : Z)
| UserInterface_SetStatus (status : bool)
| Cloud_SendThermometerTelemetryUploadEnabledChangedEvent (uploadEnabled : bool)
| Cloud_SendThermometerMovedEvent (timestamp : Z)
| Cloud_SendDeviceDetails (serial : string)
| Cloud_SendTelemetry (temp : F32.float) (timestamp : Z)
| EventLoop_Create
| CreateEventLoopPeriodicTimer (loop : Z) (period_sec period_nsec : Z)
| UserInterface_Initialise (loop : Z)
| I2CMaster_Open
| I2CMaster_SetBusSpeed (fd : Z)
| I2CMaster_SetTimeout (fd : Z) (timeout : Z)
| I2CMaster_SetDefaultTargetAddress (fd : Z) (address : Z)
| Options_GetConnectionContext
| Cloud_Initialize (loop : Z) (context : Z)
| DisposeEventLoopTimer (timer : Z)
| Cloud_Cleanup
| UserInterface_Cleanup
| Connection_Cleanup
| EventLoop_Close (loop : Z).

(** What the outside world answers during one run of a top-level
    function of main.c.  Each of them calls every external function at
    most once, so one answer per function is enough. *)
Record Env : Type := mkEnv {
  rand_result : Z;
  time_result : Z;
  errno : Z;
  close_result : Z;
  ConsumeEventLoopTimerEvent_result : Z;
  SendUploadEnabledChanged_result : Cloud_Result;
  SendMoved_result : Cloud_Result;
  SendDeviceDetails_result : Cloud_Result;
  SendTelemetry_result : Cloud_Result;
  EventLoop_Create_result : Z;
  CreateEventLoopPeriodicTimer_result : Z;
  UserInterface_Initialise_result : ExitCode;
  I2CMaster_Open_result : Z;
  I2CMaster_SetBusSpeed_result : Z;
  I2CMaster_SetTimeout_result : Z;
  I2CMaster_SetDefaultTargetAddress_result : Z;
  Options_GetConnectionContext_result : Z;
  Cloud_Initialize_result : ExitCode
}.

(** ** The monad of main.c: globals, environment, trace of calls *)

Definition M (A : Type) : Type := Env -> Globals -> A * Globals * list Call.

Definition ret {A} (a : A) : M A := fun _ g => (a, g, []).

Definition bind {A B} (m : M A) (k : A -> M B) : M B :=
  fun e g =>
    let '(a, g1, t1) := m e g in
    let '(b, g2, t2) := k a e g1 in
    (b, g2, t1 ++ t2).

Declare Scope m_scope.
Delimit Scope m_scope with m.
Notation "x <- m ;; k" := (bind m (fun x => k))
  (at level 61, m at next level, right associativity) : m_scope.
Notation "m ;; k" := (bind m (fun _ => k))
  (at level 61, right associativity) : m_scope.
Local Open Scope m_scope.

Definition get : M Globals := fun _ g => (g, g, []).
Definition modify (f : Globals -> Globals) : M unit := fun _ g => (tt, f g, []).
Definition call {A} (c : Call) (answer : Env -> A) : M A :=
  fun e g => (answer e, g, [c]).
Definition call_void (c : Call) : M unit := call c (fun _ => tt).
(** Reading [errno] is no call. *)
Definition read_errno : M Z := fun e g => (errno e, g, []).

Definition result_globals {A} (r : A * Globals * list Call) : Globals := snd (fst r).
Definition result_trace {A} (r : A * Globals * list Call) : list Call := snd r.
Definition result_value {A} (r : A * Globals * list Call) : A := fst (fst r).

(** Assignments to the globals. *)
Definition with_exitCode (v : ExitCode) (g : Globals) : Globals :=
  mkGlobals v (i2cFd g) (eventLoop g) (telemetryTimer g)
    (isConnected g) (telemetryUploadEnabled g) (temperature g).
Definition with_i2cFd (v : Z) (g : Globals) : Globals :=
  mkGlobals (exitCode g) v (eventLoop g) (telemetryTimer g)
    (isConnected g) (telemetryUploadEnabled g) (temperature g).
Definition with_eventLoop (v : Z) (g : Globals) : Globals :=
  mkGlobals (exitCode g) (i2cFd g) v (telemetryTimer g)
    (isConnected g) (telemetryUploadEnabled g) (temperature g).
Definition with_telemetryTimer (v : Z) (g : Globals) : Globals :=
  mkGlobals (exitCode g) (i2cFd g) (eventLoop g) v
    (isConnected g) (telemetryUploadEnabled g) (temperature g).
Definition with_isConnected (v : bool) (g : Globals) : Globals :=
  mkGlobals (exitCode g) (i2cFd g) (eventLoop g) (telemetryTimer g)
    v (telemetryUploadEnabled g) (temperature g).
Definition with_telemetryUploadEnabled (v : bool) (g : Globals) : Globals :=
  mkGlobals (exitCode g) (i2cFd g) (eventLoop g) (telemetryTimer g)
    (isConnected g) v (temperature g).
Definition with_temperature (v : F32.float) (g : Globals) : Globals :=
  mkGlobals (exitCode g) (i2cFd g) (eventLoop g) (telemetryTimer g)
    (isConnected g) (telemetryUploadEnabled g) v.

Definition set_exitCode (v : ExitCode) : M unit := modify (with_exitCode v).
Definition set_i2cFd (v : Z) : M unit := modify (with_i2cFd v).
Definition set_eventLoop (v : Z) : M unit := modify (with_eventLoop v).
Definition set_telemetryTimer (v : Z) : M unit := modify (with_telemetryTimer v).
Definition set_isConnected (v : bool) : M unit := modify (with_isConnected v).
Definition set_telemetryUploadEnabled (v : bool) : M unit :=
  modify (with_telemetryUploadEnabled v).
Definition set_temperature (v : F32.float) : M unit := modify (with_temperature v).

(** ** The functions of main.c *)

Definition nl : string := String (Ascii.ascii_of_nat 10) EmptyString.

(** A format string that ends in a newline. *)
Definition line (s : string) : string := String.append s nl.

Definition enabled_str (b : bool) : string := if b then "enabled" else "disabled".

(** TerminationHandler: the SIGTERM handler. *)
Definition TerminationHandler (signalNumber : Z) : M unit :=
  set_exitCode ExitCode_TermHandler_SigTerm.

Definition ExitCodeCallbackHandler (ec : ExitCode) : M unit :=
  set_exitCode ec.

Definition CloudResultToString (result : Cloud_Result) : string :=
  match result with
  | Cloud_Result_OK => "OK"
  | Cloud_Result_NoNetwork => "No network connection available"
  | Cloud_Result_OtherFailure => "Other failure"
  end.

Definition SetThermometerTelemetryUploadEnabled (uploadEnabled : bool) : M unit :=
  set_telemetryUploadEnabled uploadEnabled ;;
  call_void (UserInterface_SetStatus uploadEnabled) ;;
  result <- call (Cloud_SendThermometerTelemetryUploadEnabledChangedEvent uploadEnabled)
                 SendUploadEnabledChanged_result ;;
  if negb (Cloud_Result_eqb result Cloud_Result_OK) then
    call_void (Log_Debug
      (line "WARNING: Could not send thermometer telemetry upload enabled changed event to cloud: %s")
      [LogStr (CloudResultToString result)])
  else ret tt.

Definition DeviceMoved : M unit :=
  call_void (Log_Debug (line "INFO: Device moved.") []) ;;
  now <- call C_time time_result ;;
  result <- call (Cloud_SendThermometerMovedEvent now) SendMoved_result ;;
  if negb (Cloud_Result_eqb result Cloud_Result_OK) then
    call_void (Log_Debug
      (line "WARNING: Could not send thermometer moved event to cloud: %s")
      [LogStr (CloudResultToString result)])
  else ret tt.

Definition ButtonPressedCallbackHandler (button : UserInterface_Button) : M unit :=
  match button with
  | UserInterface_Button_A =>
      g <- get ;;
      let newTelemetryUploadEnabled := negb (telemetryUploadEnabled g) in
      call_void (Log_Debug
        (line "INFO: Telemetry upload enabled state changed (via button press): %s")
        [LogStr (enabled_str newTelemetryUploadEnabled)]) ;;
      SetThermometerTelemetryUploadEnabled newTelemetryUploadEnabled
  | UserInterface_Button_B => DeviceMoved
  | UserInterface_Button_Other _ => ret tt
  end.

Definition CloudTelemetryUploadEnabledChangedCallbackHandler (uploadEnabled : bool) : M unit :=
  call_void (Log_Debug
    (line "INFO: Thermometer telemetry upload enabled state changed (via cloud): %s")
    [LogStr (enabled_str uploadEnabled)]) ;;
  SetThermometerTelemetryUploadEnabled uploadEnabled.

Definition DisplayAlertCallbackHandler (alertMessage : string) : M unit :=
  call_void (Log_Debug (line "ALERT: %s") [LogStr alertMessage]).

Definition ConnectionChangedCallbackHandler (connected : bool) : M unit :=
  set_isConnected connected ;;
  g <- get ;;
  if isConnected g then
    result <- call (Cloud_SendDeviceDetails serialNumber) SendDeviceDetails_result ;;
    if negb (Cloud_Result_eqb result Cloud_Result_OK) then
      call_void (Log_Debug
        (line "WARNING: Could not send device details to cloud: %s")
        [LogStr (CloudResultToString result)])
    else ret tt
  else ret tt.

(** [((float)(rand() % 41)) / 20.0f - 1.0f]; [%] truncates as in C. *)
Definition simulated_delta (r : Z) : F32.float :=
  F32.sub (F32.div (F32.of_int (Z.rem r 41)) (F32.of_int 20)) (F32.of_int 1).

Definition TelemetryTimerCallbackHandler (timer : Z) : M unit :=
  consumed <- call (ConsumeEventLoopTimerEvent timer) ConsumeEventLoopTimerEvent_result ;;
  if negb (consumed =? 0) then
    set_exitCode ExitCode_TelemetryTimer_Consume
  else
    now <- call C_time time_result ;;
    g <- get ;;
    if isConnected g then
      if telemetryUploadEnabled g then
        r <- call C_rand rand_result ;;
        let delta := simulated_delta r in
        set_temperature (F32.add (temperature g) delta) ;;
        g' <- get ;;
        result <- call (Cloud_SendTelemetry (temperature g') now) SendTelemetry_result ;;
        if negb (Cloud_Result_eqb result Cloud_Result_OK) then
          call_void (Log_Debug
            (line "WARNING: Could not send thermometer telemetry to cloud: %s")
            [LogStr (CloudResultToString result)])
        else ret tt
      else
        call_void (Log_Debug
          (line "INFO: Telemetry upload disabled; not sending telemetry.") [])
    else ret tt.

(** [sht31Address], that is [0x44 << 1]. *)
Definition sht31Address : Z := Z.shiftl 68 1.

Definition InitPeripheralsAndHandlers : M ExitCode :=
  call_void C_sigaction_SIGTERM ;;
  loop <- call EventLoop_Create EventLoop_Create_result ;;
  set_eventLoop loop ;;
  if loop =? NULL then
    call_void (Log_Debug (line "Could not create event loop.") []) ;;
    ret ExitCode_Init_EventLoop
  else
    timer <- call (CreateEventLoopPeriodicTimer loop 5 0) CreateEventLoopPeriodicTimer_result ;;
    set_telemetryTimer timer ;;
    if timer =? NULL then ret ExitCode_Init_TelemetryTimer
    else
      interfaceExitCode <- call (UserInterface_Initialise loop) UserInterface_Initialise_result ;;
      if negb (ExitCode_eqb interfaceExitCode ExitCode_Success) then ret interfaceExitCode
      else
        g <- get ;;
        call_void (UserInterface_SetStatus (telemetryUploadEnabled g)) ;;
        fd <- call I2CMaster_Open I2CMaster_Open_result ;;
        set_i2cFd fd ;;
        if fd =? -1 then
          err <- read_errno ;;
          call_void (Log_Debug (line "ERROR: I2CMaster_Open: errno=%d (%s)")
                       [LogInt err; LogStrerror err]) ;;
          ret ExitCode_Init_OpenMaster
        else
          result <- call (I2CMaster_SetBusSpeed fd) I2CMaster_SetBusSpeed_result ;;
          if negb (result =? 0) then
            err <- read_errno ;;
            call_void (Log_Debug (line "ERROR: I2CMaster_SetBusSpeed: errno=%d (%s)")
                         [LogInt err; LogStrerror err]) ;;
            ret ExitCode_Init_SetBusSpeed
          else
            result <- call (I2CMaster_SetTimeout fd 100) I2CMaster_SetTimeout_result ;;
            if negb (result =? 0) then
              err <- read_errno ;;
              call_void (Log_Debug (line "ERROR: I2CMaster_SetTimeout: errno=%d (%s)")
                           [LogInt err; LogStrerror err]) ;;
              ret ExitCode_Init_SetTimeout
            else
              result <- call (I2CMaster_SetDefaultTargetAddress fd sht31Address)
                             I2CMaster_SetDefaultTargetAddress_result ;;
              if negb (result =? 0) then
                err <- read_errno ;;
                call_void (Log_Debug
                  (line "ERROR: I2CMaster_SetDefaultTargetAddress: errno=%d (%s)")
                  [LogInt err; LogStrerror err]) ;;
                ret ExitCode_Init_SetDefaultTarget
              else
                connectionContext <- call Options_GetConnectionContext
                                          Options_GetConnectionContext_result ;;
                call (Cloud_Initialize loop connectionContext) Cloud_Initialize_result.

Definition CloseFdAndPrintError (fd : Z) (fdName : string) : M unit :=
  if fd >=? 0 then
    result <- call (C_close fd) close_result ;;
    if negb (result =? 0) then
      err <- read_errno ;;
      call_void (Log_Debug (line "ERROR: Could not close fd %s: %s (%d).")
                   [LogStr fdName; LogStrerror err; LogInt err])
    else ret tt
  else ret tt.

Definition ClosePeripheralsAndHandlers : M unit :=
  g <- get ;;
  call_void (DisposeEventLoopTimer (telemetryTimer g)) ;;
  call_void Cloud_Cleanup ;;
  call_void UserInterface_Cleanup ;;
  call_void Connection_Cleanup ;;
  call_void (EventLoop_Close (eventLoop g)) ;;
  call_void (Log_Debug (line "Closing file descriptors") []) ;;
  CloseFdAndPrintError (i2cFd g) "i2c".

(** ** Events delivered to the handlers *)

Inductive Event : Type :=
| TimerTick (timer : Z)
| ButtonPress (button : UserInterface_Button)
| FatalCondition (ec : ExitCode)
| RemotePropertyChanged (uploadEnabled : bool)
| RemoteCommandInvoked (alertMessage : string)
| RemoteConnectionChanged (connected : bool)
| TerminationSignal (signalNumber : Z).

Definition handle (ev : Event) : M unit :=
  match ev with
  | TimerTick timer => TelemetryTimerCallbackHandler timer
  | ButtonPress button => ButtonPressedCallbackHandler button
  | FatalCondition ec => ExitCodeCallbackHandler ec
  | RemotePropertyChanged uploadEnabled =>
      CloudTelemetryUploadEnabledChangedCallbackHandler uploadEnabled
  | RemoteCommandInvoked alertMessage => DisplayAlertCallbackHandler alertMessage
  | RemoteConnectionChanged connected => ConnectionChangedCallbackHandler connected
  | TerminationSignal signalNumber => TerminationHandler signalNumber
  end.

(** The handlers run to completion one after the other, each with the
    answers the outside world gives during that dispatch. *)
Fixpoint run (evs : list (Event * Env)) (g : Globals) : Globals * list Call :=
  match evs with
  | [] => (g, [])
  | (ev, e) :: rest =>
      let r := handle ev e g in
      let '(g', t') := run rest (result_globals r) in
      (g', result_trace r ++ t')
  end.

(** ** Observations on traces *)

Definition is_log (c : Call) : bool :=
  match c with Log_Debug _ _ => true | _ => false end.

(** The calls that deliver something to the cloud. *)
Definition is_cloud_send (c : Call) : bool :=
  match c with
  | Cloud_SendThermometerTelemetryUploadEnabledChangedEvent _
  | Cloud_SendThermometerMovedEvent _
  | Cloud_SendDeviceDetails _
  | Cloud_SendTelemetry _ _ => true
  | _ => false
  end.

Definition is_SetStatus (c : Call) : bool :=
  match c with UserInterface_SetStatus _ => true | _ => false end.

Definition is_property_echo (c : Call) : bool :=
  match c with
  | Cloud_SendThermometerTelemetryUploadEnabledChangedEvent _ => true
  | _ => false
  end.

Definition is_SendTelemetry (c : Call) : bool :=
  match c with Cloud_SendTelemetry _ _ => true | _ => false end.

Definition is_SendDeviceDetails (c : Call) : bool :=
  match c with Cloud_SendDeviceDetails _ => true | _ => false end.

(** The trace without the Log_Debug lines. *)
Definition without_log (t : list Call) : list Call :=
  filter (fun c => negb (is_log c)) t.

Definition count (p : Call -> bool) (t : list Call) : nat :=
  List.length (filter p t).

(** The events whose handler assigns [telemetryUploadEnabled]. *)
Definition changes_upload_flag (ev : Event) : bool :=
  match ev with
  | ButtonPress UserInterface_Button_A | RemotePropertyChanged _ => true
  | _ => false
  end.

(** ** Resources of the lifecycle *)

Inductive Resource : Type :=
| DispatchLoop
| Timer
| ButtonUI
| Sensor
| RemoteSyncChannel
| Connection.

Definition Resource_eqb (a b : Resource) : bool :=
  match a, b with
  | DispatchLoop, DispatchLoop | Timer, Timer | ButtonUI, ButtonUI
  | Sensor, Sensor | RemoteSyncChannel, RemoteSyncChannel
  | Connection, Connection => true
  | _, _ => false
  end.

(** The resource a call of InitPeripheralsAndHandlers acquires. *)
Definition acquired (c : Call) : option Resource :=
  match c with
  | EventLoop_Create => Some DispatchLoop
  | CreateEventLoopPeriodicTimer _ _ _ => Some Timer
  | UserInterface_Initialise _ => Some ButtonUI
  | I2CMaster_Open => Some Sensor
  | Cloud_Initialize _ _ => Some RemoteSyncChannel
  | _ => None
  end.

(** The resource a call of ClosePeripheralsAndHandlers releases. *)
Definition released (c : Call) : option Resource :=
  match c with
  | DisposeEventLoopTimer _ => Some Timer
  | Cloud_Cleanup => Some RemoteSyncChannel
  | UserInterface_Cleanup => Some ButtonUI
  | Connection_Cleanup => Some Connection
  | EventLoop_Close _ => Some DispatchLoop
  | C_close _ => Some Sensor
  | _ => None
  end.

Fixpoint pick {A B} (f : A -> option B) (l : list A) : list B :=
  match l with
  | [] => []
  | a :: l' => match f a with
               | Some b => b :: pick f l'
               | None => pick f l'
               end
  end.

Definition acquisition_order (t : list Call) : list Resource := pick acquired t.
Definition release_order (t : list Call) : list Resource := pick released t.

(** ** Environments used in the concrete runs *)

(** Every external function succeeds; [rand()] answers [r]. *)
Definition env_ok (r : Z) : Env :=
  {| rand_result := r;
     time_result := 1700000000;
     errno := 0;
     close_result := 0;
     ConsumeEventLoopTimerEvent_result := 0;
     SendUploadEnabledChanged_result := Cloud_Result_OK;
     SendMoved_result := Cloud_Result_OK;
     SendDeviceDetails_result := Cloud_Result_OK;
     SendTelemetry_result := Cloud_Result_OK;
     EventLoop_Create_result := 4096;
     CreateEventLoopPeriodicTimer_result := 8192;
     UserInterface_Initialise_result := ExitCode_Success;
     I2CMaster_Open_result := 3;
     I2CMaster_SetBusSpeed_result := 0;
     I2CMaster_SetTimeout_result := 0;
     I2CMaster_SetDefaultTargetAddress_result := 0;
     Options_GetConnectionContext_result := 12288;
     Cloud_Initialize_result := ExitCode_Success |}.

(** The same answers as [e], except for the four sends to the cloud. *)
Definition with_send_results (changed moved details telemetry : Cloud_Result)
    (e : Env) : Env :=
  {| rand_result := rand_result e;
     time_result := time_result e;
     errno := errno e;
     close_result := close_result e;
     ConsumeEventLoopTimerEvent_result := ConsumeEventLoopTimerEvent_result e;
     SendUploadEnabledChanged_result := changed;
     SendMoved_result := moved;
     SendDeviceDetails_result := details;
     SendTelemetry_result := telemetry;
     EventLoop_Create_result := EventLoop_Create_result e;
     CreateEventLoopPeriodicTimer_result := CreateEventLoopPeriodicTimer_result e;
     UserInterface_Initialise_result := UserInterface_Initialise_result e;
     I2CMaster_Open_result := I2CMaster_Open_result e;
     I2CMaster_SetBusSpeed_result := I2CMaster_SetBusSpeed_result e;
     I2CMaster_SetTimeout_result := I2CMaster_SetTimeout_result e;
     I2CMaster_SetDefaultTargetAddress_result := I2CMaster_SetDefaultTargetAddress_result e;
     Options_GetConnectionContext_result := Options_GetConnectionContext_result e;
     Cloud_Initialize_result := Cloud_Initialize_result e |}.

(** Every send returns OK, the other answers are those of [e]. *)
Definition with_sends_ok (e : Env) : Env :=
  with_send_results Cloud_Result_OK Cloud_Result_OK Cloud_Result_OK Cloud_Result_OK e.

(** No network: every send fails, everything else succeeds. *)
Definition env_no_network (r : Z) : Env :=
  with_send_results Cloud_Result_NoNetwork Cloud_Result_NoNetwork
    Cloud_Result_NoNetwork Cloud_Result_NoNetwork (env_ok r).

(** [n] presses of button A, the k-th with the answers [envs_k]. *)
Definition presses_of_A (envs : list Env) : list (Event * Env) :=
  map (fun e => (ButtonPress UserInterface_Button_A, e)) envs.

(** Timer ticks with the given [rand()] answers, all calls succeeding. *)
Definition ticks (timer : Z) (rs : list Z) : list (Event * Env) :=
  map (fun r => (TimerTick timer, env_ok r)) rs.

(** ** Predicates and inputs of the properties *)

(** The event does not report the success value as a fatal condition. *)
Definition reports_failure (ev : Event) : bool :=
  match ev with
  | FatalCondition ec => negb (ExitCode_eqb ec ExitCode_Success)
  | _ => true
  end.

(** The acquisitions of a complete startup, in order. *)
Definition all_acquisitions : list Resource :=
  [DispatchLoop; Timer; ButtonUI; Sensor; RemoteSyncChannel].

(** The handler's condition for perturbing and sending. *)
Definition tick_sends (e : Env) (g : Globals) : bool :=
  (ConsumeEventLoopTimerEvent_result e =? 0)
  && isConnected g && telemetryUploadEnabled g.

(** The delta for the residue [k] of [rand() % 41]. *)
Definition residue_delta (k : Z) : F32.float :=
  F32.sub (F32.div (F32.of_int k) (F32.of_int 20)) (F32.of_int 1).

(** [d] is a finite float in [-1.0, +1.0], both exactly and with the
    float comparison. *)
Definition in_unit_interval (d : F32.float) : bool :=
  F32.is_finite d
  && Qle_bool (-1) (F32.to_Q d) && Qle_bool (F32.to_Q d) 1
  && F32.leb (F32.of_int (-1)) d && F32.leb d (F32.of_int 1).

(** The first measurement, from 50.0, stays within 1.0 of it. *)
Definition first_step_within_one (d : F32.float) : bool :=
  let t' := F32.add (F32.of_int 50) d in
  F32.is_finite t'
  && Qle_bool (-1) (F32.to_Q t' - 50) && Qle_bool (F32.to_Q t' - 50) 1.

Definition residues : list Z := map Z.of_nat (seq 0 41).

(** Answers of [rand()] that walk the temperature from 50.0 to the
    largest float below 64.0. *)
Definition rands_to_edge : list Z :=
  repeat 40 13 ++ [22; 22; 21; 25; 25; 25].

(** Connect, enable the upload with button A, then tick. *)
Definition edge_run : list (Event * Env) :=
  (RemoteConnectionChanged true, env_ok 0)
  :: (ButtonPress UserInterface_Button_A, env_ok 0)
  :: ticks 8192 rands_to_edge.

(** ** The entry point *)

(** The result of EventLoop_Run; main.c only tells EventLoop_Run_Failed
    from everything else. *)
Inductive EventLoop_Run_Result : Type :=
| EventLoop_Run_Failed
| EventLoop_Run_NotFailed.

(** [EINTR] of errno.h on Linux. *)
Definition EINTR : Z := 4.

(** One call of EventLoop_Run by the main loop: the handlers it
    dispatches before it returns (signal handlers included), its result
    and the [errno] it leaves. *)
Record Iteration : Type := mkIteration {
  dispatched : list (Event * Env);
  run_result : EventLoop_Run_Result;
  run_errno : Z
}.

(** The answers [main] gets outside the loop. *)
Record MainEnv : Type := mkMainEnv {
  Networking_IsNetworkingReady_result : Z;
  isNetworkingReady : bool;
  Options_ParseArgs_result : ExitCode;
  init_answers : Env;
  close_answers : Env
}.

(** A call in the trace of [main]: one of the calls above, or one of the
    three functions only [main] calls. *)
Inductive MainCall : Type :=
| in_main (c : Call)
| Networking_IsNetworkingReady
| Options_ParseArgs
| EventLoop_Run (loop : Z).

(** [while (exitCode == ExitCode_Success) { EventLoop_Run ... }].
    [None]: the answers in [iters] are used up and the loop is still
    waiting in EventLoop_Run. *)
Fixpoint main_loop (iters : list Iteration) (g : Globals)
  : option (Globals * list MainCall) :=
  if ExitCode_eqb (exitCode g) ExitCode_Success then
    match iters with
    | [] => None
    | it :: rest =>
        let '(g1, t1) := run (dispatched it) g in
        let g2 :=
          match run_result it with
          | EventLoop_Run_Failed =>
              if negb (run_errno it =? EINTR)
              then with_exitCode ExitCode_Main_EventLoopFail g1
              else g1
          | EventLoop_Run_NotFailed => g1
          end in
        match main_loop rest g2 with
        | Some (g', t') => Some (g', EventLoop_Run (eventLoop g) :: map in_main t1 ++ t')
        | None => None
        end
    end
  else Some (g, []).

(** The calls of [main] up to and including Options_ParseArgs. *)
Definition main_prologue (me : MainEnv) : list MainCall :=
  [in_main (Log_Debug (line "Azure IoT Application starting.") []);
   Networking_IsNetworkingReady]
  ++ (if (Networking_IsNetworkingReady_result me =? -1) || negb (isNetworkingReady me)
      then [in_main (Log_Debug
              (line "WARNING: Network is not ready. Device cannot connect until network is ready.")
              [])]
      else [])
  ++ [Options_ParseArgs].

(** [main]: the value returned, the globals and the calls made, or
    [None] while the loop is still waiting. *)
Definition main (me : MainEnv) (iters : list Iteration) (g : Globals)
  : option (ExitCode * Globals * list MainCall) :=
  let g1 := with_exitCode (Options_ParseArgs_result me) g in
  if negb (ExitCode_eqb (exitCode g1) ExitCode_Success) then
    Some (exitCode g1, g1, main_prologue me)
  else
    let r := InitPeripheralsAndHandlers (init_answers me) g1 in
    let g2 := with_exitCode (result_value r) (result_globals r) in
    match main_loop iters g2 with
    | None => None
    | Some (g3, t3) =>
        let c := ClosePeripheralsAndHandlers (close_answers me) g3 in
        Some (exitCode (result_globals c), result_globals c,
              main_prologue me
              ++ map in_main (result_trace r)
              ++ t3
              ++ map in_main (result_trace c)
              ++ [in_main (Log_Debug (line "Application exiting.") [])])
    end.

(** The calls of [main] that are calls of the functions above. *)
Fixpoint inner_calls (t : list MainCall) : list Call :=
  match t with
  | [] => []
  | in_main c :: t' => c :: inner_calls t'
  | _ :: t' => inner_calls t'
  end.

Definition is_EventLoop_Run (c : MainCall) : bool :=
  match c with EventLoop_Run _ => true | _ => false end.

(** ** Further predicates and inputs *)

(** The last connection notification of a run, if there is one. *)
Fixpoint last_connection (evs : list (Event * Env)) (start : bool) : bool :=
  match evs with
  | [] => start
  | (RemoteConnectionChanged c, _) :: rest => last_connection rest c
  | _ :: rest => last_connection rest start
  end.

(** Every step of the startup succeeds. *)
Definition startup_succeeds (e : Env) : bool :=
  negb (EventLoop_Create_result e =? NULL)
  && negb (CreateEventLoopPeriodicTimer_result e =? NULL)
  && ExitCode_eqb (UserInterface_Initialise_result e) ExitCode_Success
  && negb (I2CMaster_Open_result e =? -1)
  && (I2CMaster_SetBusSpeed_result e =? 0)
  && (I2CMaster_SetTimeout_result e =? 0)
  && (I2CMaster_SetDefaultTargetAddress_result e =? 0).

(** The startup gets as far as opening the I2C master. *)
Definition startup_opens_i2c (e : Env) : bool :=
  negb (EventLoop_Create_result e =? NULL)
  && negb (CreateEventLoopPeriodicTimer_result e =? NULL)
  && ExitCode_eqb (UserInterface_Initialise_result e) ExitCode_Success.

Definition is_Cloud_Initialize (c : Call) : bool :=
  match c with Cloud_Initialize _ _ => true | _ => false end.

Definition is_close (c : Call) : bool :=
  match c with C_close _ => true | _ => false end.

Definition is_rand (c : Call) : bool :=
  match c with C_rand => true | _ => false end.

(** The same answers as [me] with other answers of
    Networking_IsNetworkingReady. *)
Definition with_networking (res : Z) (ready : bool) (me : MainEnv) : MainEnv :=
  {| Networking_IsNetworkingReady_result := res;
     isNetworkingReady := ready;
     Options_ParseArgs_result := Options_ParseArgs_result me;
     init_answers := init_answers me;
     close_answers := close_answers me |}.

(** Everything outside the loop succeeds. *)
Definition main_env_ok : MainEnv :=
  {| Networking_IsNetworkingReady_result := 0;
     isNetworkingReady := true;
     Options_ParseArgs_result := ExitCode_Success;
     init_answers := env_ok 0;
     close_answers := env_ok 0 |}.

(** An EventLoop_Run that dispatches [evs] and does not fail. *)
Definition dispatching (evs : list (Event * Env)) : Iteration :=
  {| dispatched := evs; run_result := EventLoop_Run_NotFailed; run_errno := 0 |}.

(** The float order on the deltas of two residues. *)
Definition residue_delta_lt (k k' : Z) : bool :=
  F32.ltb (residue_delta k) (residue_delta k').

(** The handler run may assign [exitCode]. *)
Definition may_set_exitCode (p : Event * Env) : bool :=
  match fst p with
  | FatalCondition _ | TerminationSignal _ => true
  | TimerTick _ => negb (ConsumeEventLoopTimerEvent_result (snd p) =? 0)
  | _ => false
  end.

(** The globals after one iteration of the loop body. *)
Definition after_iteration (it : Iteration) (g : Globals) : Globals :=
  match run_result it with
  | EventLoop_Run_Failed =>
      if negb (run_errno it =? EINTR)
      then with_exitCode ExitCode_Main_EventLoopFail (fst (run (dispatched it) g))
      else fst (run (dispatched it) g)
  | EventLoop_Run_NotFailed => fst (run (dispatched it) g)
  end.

(** The answer of the send that the handler of [ev] may make. *)
Definition send_answer (ev : Event) (e : Env) : Cloud_Result :=
  match ev with
  | TimerTick _ => SendTelemetry_result e
  | ButtonPress UserInterface_Button_A | RemotePropertyChanged _ =>
      SendUploadEnabledChanged_result e
  | ButtonPress UserInterface_Button_B => SendMoved_result e
  | RemoteConnectionChanged _ => SendDeviceDetails_result e
  | _ => Cloud_Result_OK
  end.

(** The format of the warning that the handler of [ev] logs when its
    send fails. *)
Definition send_warning (ev : Event) : string :=
  match ev with
  | TimerTick _ => line "WARNING: Could not send thermometer telemetry to cloud: %s"
  | ButtonPress UserInterface_Button_B =>
      line "WARNING: Could not send thermometer moved event to cloud: %s"
  | RemoteConnectionChanged _ =>
      line "WARNING: Could not send device details to cloud: %s"
  | _ => line "WARNING: Could not send thermometer telemetry upload enabled changed event to cloud: %s"
  end.

(** * Properties *)

(** ** The single mutation path of [telemetryUploadEnabled] *)

Ltac run_handler :=
  cbv [handle ButtonPressedCallbackHandler
       CloudTelemetryUploadEnabledChangedCallbackHandler
       SetThermometerTelemetryUploadEnabled DeviceMoved
       DisplayAlertCallbackHandler ConnectionChangedCallbackHandler
       TelemetryTimerCallbackHandler ExitCodeCallbackHandler TerminationHandler
       set_exitCode set_isConnected set_telemetryUploadEnabled set_temperature
       bind ret get modify call call_void
       result_globals result_trace result_value without_log count];
  cbn [fst snd app isConnected telemetryUploadEnabled temperature exitCode
       with_isConnected with_telemetryUploadEnabled with_temperature with_exitCode].

Lemma SetThermometerTelemetryUploadEnabled_globals (v : bool) (e : Env) (g : Globals) :
  result_globals (SetThermometerTelemetryUploadEnabled v e g)
  = with_telemetryUploadEnabled v g.
Proof.
  run_handler.
  destruct (SendUploadEnabledChanged_result e); reflexivity.
Qed.

Lemma SetThermometerTelemetryUploadEnabled_trace (v : bool) (e : Env) (g : Globals) :
  without_log (result_trace (SetThermometerTelemetryUploadEnabled v e g))
  = [UserInterface_SetStatus v;
     Cloud_SendThermometerTelemetryUploadEnabledChangedEvent v].
Proof.
  run_handler.
  destruct (SendUploadEnabledChanged_result e); reflexivity.
Qed.

Lemma ButtonA_globals (e : Env) (g : Globals) :
  result_globals (ButtonPressedCallbackHandler UserInterface_Button_A e g)
  = with_telemetryUploadEnabled (negb (telemetryUploadEnabled g)) g.
Proof.
  run_handler.
  destruct (SendUploadEnabledChanged_result e); reflexivity.
Qed.

Lemma ButtonA_trace (e : Env) (g : Globals) :
  without_log (result_trace (ButtonPressedCallbackHandler UserInterface_Button_A e g))
  = [UserInterface_SetStatus (negb (telemetryUploadEnabled g));
     Cloud_SendThermometerTelemetryUploadEnabledChangedEvent
       (negb (telemetryUploadEnabled g))].
Proof.
  run_handler.
  destruct (SendUploadEnabledChanged_result e); reflexivity.
Qed.

Lemma RemoteProperty_globals (v : bool) (e : Env) (g : Globals) :
  result_globals (CloudTelemetryUploadEnabledChangedCallbackHandler v e g)
  = with_telemetryUploadEnabled v g.
Proof.
  run_handler.
  destruct (SendUploadEnabledChanged_result e); reflexivity.
Qed.

Lemma RemoteProperty_trace (v : bool) (e : Env) (g : Globals) :
  without_log (result_trace (CloudTelemetryUploadEnabledChangedCallbackHandler v e g))
  = [UserInterface_SetStatus v;
     Cloud_SendThermometerTelemetryUploadEnabledChangedEvent v].
Proof.
  run_handler.
  destruct (SendUploadEnabledChanged_result e); reflexivity.
Qed.

(** A handler that is neither a press of button A nor a remote property
    change leaves the flag alone. *)
Lemma other_handlers_keep_upload_flag (ev : Event) (e : Env) (g : Globals) :
  changes_upload_flag ev = false ->
  telemetryUploadEnabled (result_globals (handle ev e g)) = telemetryUploadEnabled g.
Proof.
  destruct ev as [timer | [ | | n] | ec | v | msg | c | sig]; cbn [changes_upload_flag];
    try discriminate; intros _; run_handler.
  - destruct (ConsumeEventLoopTimerEvent_result e =? 0); cbn; [ | reflexivity].
    destruct (isConnected g); cbn; [ | reflexivity].
    destruct (telemetryUploadEnabled g) eqn:Hup; cbn; [ | assumption].
    destruct (SendTelemetry_result e); assumption.
  - destruct (SendMoved_result e); reflexivity.
  - reflexivity.
  - reflexivity.
  - reflexivity.
  - destruct c; cbn; [ | reflexivity].
    destruct (SendDeviceDetails_result e); reflexivity.
  - reflexivity.
Qed.

(** C1: a press of button A and a remote property change both store the
    new value of [telemetryUploadEnabled] and then, before returning and
    whatever the send answers (OK, NoNetwork, OtherFailure), make exactly
    one UserInterface_SetStatus call and one
    Cloud_SendThermometerTelemetryUploadEnabledChangedEvent call with the
    new value, in this order; the stored value is the new one also when
    the send fails, and no second indicator call undoes the first.  No
    other handler changes the flag. *)
Theorem upload_enabled_change_updates_indicator_and_notifies :
  forall (e : Env) (g : Globals),
    (let r := ButtonPressedCallbackHandler UserInterface_Button_A e g in
     let v := negb (telemetryUploadEnabled g) in
     result_globals r = with_telemetryUploadEnabled v g /\
     without_log (result_trace r)
     = [UserInterface_SetStatus v;
        Cloud_SendThermometerTelemetryUploadEnabledChangedEvent v]) /\
    (forall v : bool,
       let r := CloudTelemetryUploadEnabledChangedCallbackHandler v e g in
       result_globals r = with_telemetryUploadEnabled v g /\
       without_log (result_trace r)
       = [UserInterface_SetStatus v;
          Cloud_SendThermometerTelemetryUploadEnabledChangedEvent v]) /\
    (forall ev : Event,
       if changes_upload_flag ev then True
       else telemetryUploadEnabled (result_globals (handle ev e g))
            = telemetryUploadEnabled g).
Proof.
  intros e g. split; [ | split].
  - cbv zeta. split; [apply ButtonA_globals | apply ButtonA_trace].
  - intros v. cbv zeta. split; [apply RemoteProperty_globals | apply RemoteProperty_trace].
  - intros ev. destruct (changes_upload_flag ev) eqn:Hc; [exact I | ].
    now apply other_handlers_keep_upload_flag.
Qed.

(** ** Remote and local origin *)

(** C2 (as stated) fails: a remote property change also sends the
    property echo.  From the initial state, a remote change to [true]
    calls Cloud_SendThermometerTelemetryUploadEnabledChangedEvent. *)
Lemma remote_origin_echo_not_skipped :
  ~ (forall c : Call,
       In c (result_trace
               (CloudTelemetryUploadEnabledChangedCallbackHandler true
                  (env_ok 0) initial_globals)) ->
       is_property_echo c = false).
Proof.
  intros H.
  specialize (H (Cloud_SendThermometerTelemetryUploadEnabledChangedEvent true)).
  cbn in H. discriminate H. right. right. now left.
Qed.

(** C2 (amended): when a press of button A and a remote property change
    have the same target value, they end in the same globals and make
    the same calls apart from the Log_Debug lines, whatever the outside
    world answers: one indicator update and one property echo each; no
    echo is skipped for a remote origin. *)
Theorem remote_and_button_same_mutation_path :
  forall (e1 e2 : Env) (g : Globals),
    let v := negb (telemetryUploadEnabled g) in
    let rb := ButtonPressedCallbackHandler UserInterface_Button_A e1 g in
    let rr := CloudTelemetryUploadEnabledChangedCallbackHandler v e2 g in
    result_globals rb = result_globals rr /\
    without_log (result_trace rb) = without_log (result_trace rr) /\
    count is_SetStatus (result_trace rr) = 1%nat /\
    count is_property_echo (result_trace rr) = 1%nat /\
    In (Cloud_SendThermometerTelemetryUploadEnabledChangedEvent v) (result_trace rr).
Proof.
  intros e1 e2 g. cbv zeta.
  rewrite ButtonA_globals, RemoteProperty_globals, ButtonA_trace, RemoteProperty_trace.
  repeat split; run_handler;
    destruct (SendUploadEnabledChanged_result e2); cbn; auto.
Qed.

(** ** Timer ticks while disconnected *)

Lemma tick_disconnected_trace (timer : Z) (e : Env) (g : Globals) :
  isConnected g = false ->
  result_trace (TelemetryTimerCallbackHandler timer e g)
  = if ConsumeEventLoopTimerEvent_result e =? 0
    then [ConsumeEventLoopTimerEvent timer; C_time]
    else [ConsumeEventLoopTimerEvent timer].
Proof.
  intros Hd. run_handler.
  destruct (ConsumeEventLoopTimerEvent_result e =? 0); cbn; [ | reflexivity].
  rewrite Hd. reflexivity.
Qed.

(** C4: in a state with [isConnected = false], whatever
    [telemetryUploadEnabled] is and whatever the outside world answers,
    TelemetryTimerCallbackHandler calls no Cloud_Send function; in
    particular there is no Cloud_SendTelemetry call. *)
Theorem tick_while_disconnected_sends_nothing :
  forall (timer : Z) (e : Env) (g : Globals),
    isConnected g = false ->
    let t := result_trace (handle (TimerTick timer) e g) in
    count is_SendTelemetry t = 0%nat /\ count is_cloud_send t = 0%nat.
Proof.
  intros timer e g Hd. cbv zeta. cbn [handle].
  rewrite (tick_disconnected_trace timer e g Hd).
  destruct (ConsumeEventLoopTimerEvent_result e =? 0); split; reflexivity.
Qed.

Lemma tick_while_disconnected_sends_nothing_witness :
  isConnected (with_telemetryUploadEnabled true initial_globals) = false /\
  count is_SendTelemetry
    (result_trace (handle (TimerTick 8192) (env_ok 7)
                     (with_telemetryUploadEnabled true initial_globals))) = 0%nat.
Proof.
  split; [reflexivity | ].
  apply (tick_while_disconnected_sends_nothing 8192 (env_ok 7)
           (with_telemetryUploadEnabled true initial_globals)).
  reflexivity.
Defined.

(** ** Presses of button A *)

Lemma count_app (p : Call -> bool) (t1 t2 : list Call) :
  count p (t1 ++ t2) = (count p t1 + count p t2)%nat.
Proof. unfold count. now rewrite filter_app, length_app. Qed.

Lemma ButtonA_SetStatus_once (e : Env) (g : Globals) :
  count is_SetStatus
    (result_trace (ButtonPressedCallbackHandler UserInterface_Button_A e g)) = 1%nat.
Proof.
  run_handler. destruct (SendUploadEnabledChanged_result e); reflexivity.
Qed.

Lemma odd_mod2 (n : nat) : (Nat.modulo n 2 =? 1)%nat = Nat.odd n.
Proof.
  rewrite <- (Nat.bit0_mod n), Nat.bit0_odd.
  now destruct (Nat.odd n).
Qed.

Lemma presses_of_A_flag (envs : list Env) (g : Globals) :
  telemetryUploadEnabled (fst (run (presses_of_A envs) g))
  = xorb (telemetryUploadEnabled g) (Nat.odd (List.length envs)) /\
  count is_SetStatus (snd (run (presses_of_A envs) g)) = List.length envs.
Proof.
  revert g. induction envs as [ | e envs IH]; intros g.
  - cbn. now rewrite xorb_false_r.
  - cbn [presses_of_A map run handle List.length].
    specialize (IH (result_globals
                      (ButtonPressedCallbackHandler UserInterface_Button_A e g))).
    fold (presses_of_A envs).
    destruct (run (presses_of_A envs) _) as [g' t'] eqn:Hrun.
    cbn [fst snd] in *. destruct IH as [IHf IHc]. split.
    + rewrite IHf, ButtonA_globals. cbn [telemetryUploadEnabled with_telemetryUploadEnabled].
      rewrite Nat.odd_succ, <- Nat.negb_odd.
      now destruct (telemetryUploadEnabled g), (Nat.odd (List.length envs)).
    + rewrite count_app, ButtonA_SetStatus_once, IHc. reflexivity.
Qed.

(** C5: from the initial state, after n presses of button A (whatever
    the outside world answers each time) [telemetryUploadEnabled] is
    true exactly when n mod 2 = 1; every single press, in every state,
    makes exactly one UserInterface_SetStatus call before it returns,
    with the new value, so n presses make n of them. *)
Theorem button_A_presses_toggle_parity :
  forall envs : list Env,
    let n := List.length envs in
    telemetryUploadEnabled (fst (run (presses_of_A envs) initial_globals))
    = (Nat.modulo n 2 =? 1)%nat /\
    count is_SetStatus (snd (run (presses_of_A envs) initial_globals)) = n /\
    (forall (e : Env) (g : Globals),
       filter is_SetStatus
         (result_trace (handle (ButtonPress UserInterface_Button_A) e g))
       = [UserInterface_SetStatus (negb (telemetryUploadEnabled g))]).
Proof.
  intros envs. cbv zeta.
  destruct (presses_of_A_flag envs initial_globals) as [Hf Hc].
  split; [ | split].
  - rewrite Hf. cbn [telemetryUploadEnabled initial_globals xorb].
    symmetry. apply odd_mod2.
  - exact Hc.
  - intros e g. run_handler. destruct (SendUploadEnabledChanged_result e); reflexivity.
Qed.

(** ** Connection changes *)

Lemma ConnectionChanged_true_trace (e : Env) (g : Globals) :
  without_log (result_trace (ConnectionChangedCallbackHandler true e g))
  = [Cloud_SendDeviceDetails serialNumber].
Proof.
  run_handler. destruct (SendDeviceDetails_result e); reflexivity.
Qed.

Lemma ConnectionChanged_globals (connected : bool) (e : Env) (g : Globals) :
  result_globals (ConnectionChangedCallbackHandler connected e g)
  = with_isConnected connected g.
Proof.
  run_handler. destruct connected; cbn; [ | reflexivity].
  destruct (SendDeviceDetails_result e); reflexivity.
Qed.

Lemma without_log_app (t1 t2 : list Call) :
  without_log (t1 ++ t2) = without_log t1 ++ without_log t2.
Proof. apply filter_app. Qed.

(** C6: ConnectionChangedCallbackHandler(true) makes exactly one
    Cloud_SendDeviceDetails call, with the serial number TEMPMON-01234,
    and no other call except a warning line when the send fails,
    whatever [isConnected] was before; two notifications of [true] in a
    row make two such calls; ConnectionChangedCallbackHandler(false)
    makes no call at all. *)
Theorem connection_true_sends_device_details_each_time :
  forall (e1 e2 : Env) (g : Globals),
    without_log (result_trace (handle (RemoteConnectionChanged true) e1 g))
    = [Cloud_SendDeviceDetails "TEMPMON-01234"] /\
    without_log (snd (run [(RemoteConnectionChanged true, e1);
                           (RemoteConnectionChanged true, e2)] g))
    = [Cloud_SendDeviceDetails "TEMPMON-01234";
       Cloud_SendDeviceDetails "TEMPMON-01234"] /\
    result_trace (handle (RemoteConnectionChanged false) e1 g) = [].
Proof.
  intros e1 e2 g. split; [ | split].
  - apply ConnectionChanged_true_trace.
  - cbn [run handle fst snd].
    rewrite app_nil_r, without_log_app, !ConnectionChanged_true_trace. reflexivity.
  - reflexivity.
Qed.

(** ** The exit code *)

Lemma ExitCode_eqb_eq (a b : ExitCode) : ExitCode_eqb a b = true <-> a = b.
Proof.
  split.
  - destruct a, b; cbn; try discriminate; try reflexivity.
    intros H. apply Nat.eqb_eq in H. now subst.
  - intros ->. destruct b; cbn; try reflexivity. apply Nat.eqb_refl.
Qed.

Lemma handle_keeps_failure (ev : Event) (e : Env) (g : Globals) :
  reports_failure ev = true ->
  exitCode g <> ExitCode_Success ->
  exitCode (result_globals (handle ev e g)) <> ExitCode_Success.
Proof.
  intros Hev Hg.
  destruct ev as [timer | [ | | n] | ec | v | msg | c | sig]; run_handler.
  - destruct (ConsumeEventLoopTimerEvent_result e =? 0); cbn; [ | discriminate].
    destruct (isConnected g); cbn; [ | assumption].
    destruct (telemetryUploadEnabled g); cbn; [ | assumption].
    destruct (SendTelemetry_result e); assumption.
  - destruct (SendUploadEnabledChanged_result e); assumption.
  - destruct (SendMoved_result e); assumption.
  - assumption.
  - cbn in Hev. intros ->. cbn in Hev. discriminate.
  - destruct (SendUploadEnabledChanged_result e); assumption.
  - assumption.
  - destruct c; cbn; [ | assumption].
    destruct (SendDeviceDetails_result e); assumption.
  - discriminate.
Qed.

(** C3 (as stated) fails: ExitCodeCallbackHandler stores its argument
    unconditionally.  After SIGTERM has set the exit code, a call with
    ExitCode_Success puts it back to success. *)
Lemma exit_code_downgraded_to_success :
  let g1 := result_globals (handle (TerminationSignal 15) (env_ok 0) initial_globals) in
  exitCode g1 = ExitCode_TermHandler_SigTerm /\
  exitCode (result_globals (handle (FatalCondition ExitCode_Success) (env_ok 0) g1))
  = ExitCode_Success.
Proof. split; reflexivity. Qed.

(** C3 (amended): once [exitCode] holds a failure value, it still holds
    a failure value (possibly another one) after every sequence of
    handler runs in which every ExitCodeCallbackHandler argument is a
    failure value; the timer handler and the signal handler only ever
    write failure values. *)
Theorem exit_code_stays_failure :
  forall (evs : list (Event * Env)) (g : Globals),
    exitCode g <> ExitCode_Success ->
    forallb (fun p => reports_failure (fst p)) evs = true ->
    exitCode (fst (run evs g)) <> ExitCode_Success.
Proof.
  induction evs as [ | [ev e] evs IH]; intros g Hg Hall.
  - exact Hg.
  - cbn [forallb fst] in Hall. apply andb_true_iff in Hall as [Hev Hrest].
    cbn [run].
    specialize (IH (result_globals (handle ev e g))
                  (handle_keeps_failure ev e g Hev Hg) Hrest).
    destruct (run evs (result_globals (handle ev e g))) as [g' t']. exact IH.
Qed.

Lemma exit_code_stays_failure_witness :
  exitCode (fst (run [(TimerTick 8192, env_ok 3);
                      (FatalCondition ExitCode_Init_OpenMaster, env_ok 0);
                      (TerminationSignal 15, env_ok 0);
                      (ButtonPress UserInterface_Button_A, env_no_network 0)]
                  (with_exitCode ExitCode_TelemetryTimer_Consume initial_globals)))
  <> ExitCode_Success.
Proof.
  apply (exit_code_stays_failure
           [(TimerTick 8192, env_ok 3);
            (FatalCondition ExitCode_Init_OpenMaster, env_ok 0);
            (TerminationSignal 15, env_ok 0);
            (ButtonPress UserInterface_Button_A, env_no_network 0)]
           (with_exitCode ExitCode_TelemetryTimer_Consume initial_globals)).
  - cbn. discriminate.
  - reflexivity.
Defined.

(** ** Failed sends *)

Lemma failed_send_same_globals (ev : Event) (e : Env) (g : Globals) :
  result_globals (handle ev e g) = result_globals (handle ev (with_sends_ok e) g) /\
  without_log (result_trace (handle ev e g))
  = without_log (result_trace (handle ev (with_sends_ok e) g)).
Proof.
  destruct ev as [timer | [ | | n] | ec | v | msg | c | sig]; run_handler;
    cbn [with_sends_ok with_send_results ConsumeEventLoopTimerEvent_result
         SendTelemetry_result SendUploadEnabledChanged_result SendMoved_result
         SendDeviceDetails_result time_result rand_result].
  - destruct (ConsumeEventLoopTimerEvent_result e =? 0); cbn; [ | now split].
    destruct (isConnected g); cbn; [ | now split].
    destruct (telemetryUploadEnabled g); cbn; [ | now split].
    destruct (SendTelemetry_result e); now split.
  - destruct (SendUploadEnabledChanged_result e); now split.
  - destruct (SendMoved_result e); now split.
  - now split.
  - now split.
  - destruct (SendUploadEnabledChanged_result e); now split.
  - now split.
  - destruct c; cbn; [ | now split]. destruct (SendDeviceDetails_result e); now split.
  - now split.
Qed.

Lemma send_at_most_once (ev : Event) (e : Env) (g : Globals) :
  (count is_cloud_send (result_trace (handle ev e g)) <= 1)%nat /\
  (count is_cloud_send (result_trace (handle ev e g)) = 1%nat ->
   exitCode (result_globals (handle ev e g)) = exitCode g).
Proof.
  destruct ev as [timer | [ | | n] | ec | v | msg | c | sig]; run_handler.
  - destruct (ConsumeEventLoopTimerEvent_result e =? 0); cbn; [ | split; [lia | discriminate]].
    destruct (isConnected g); cbn; [ | split; [lia | discriminate]].
    destruct (telemetryUploadEnabled g); cbn; [ | split; [lia | discriminate]].
    destruct (SendTelemetry_result e); cbn; split; auto.
  - destruct (SendUploadEnabledChanged_result e); cbn; split; auto.
  - destruct (SendMoved_result e); cbn; split; auto.
  - cbn. split; [lia | discriminate].
  - cbn. split; [lia | discriminate].
  - destruct (SendUploadEnabledChanged_result e); cbn; split; auto.
  - cbn. split; [lia | discriminate].
  - destruct c; cbn; [ | split; [lia | discriminate]].
    destruct (SendDeviceDetails_result e); cbn; split; auto.
  - cbn. split; [lia | discriminate].
Qed.

Lemma tick_connected_enabled (timer : Z) (e : Env) (g : Globals) :
  ConsumeEventLoopTimerEvent_result e = 0 ->
  isConnected g = true ->
  telemetryUploadEnabled g = true ->
  let t' := F32.add (temperature g) (simulated_delta (rand_result e)) in
  result_globals (TelemetryTimerCallbackHandler timer e g) = with_temperature t' g /\
  without_log (result_trace (TelemetryTimerCallbackHandler timer e g))
  = [ConsumeEventLoopTimerEvent timer; C_time; C_rand;
     Cloud_SendTelemetry t' (time_result e)].
Proof.
  intros Hc Hconn Hup. run_handler. rewrite Hc. cbn. rewrite Hconn. cbn.
  rewrite Hup. cbn. destruct (SendTelemetry_result e); now split.
Qed.

(** A failed send appends one warning, with the text of the result, to
    the calls of the run in which the send returns OK. *)
Lemma failed_send_trace (ev : Event) (e : Env) (g : Globals) :
  result_trace (handle ev e g)
  = result_trace (handle ev (with_sends_ok e) g)
    ++ (if (count is_cloud_send (result_trace (handle ev e g)) =? 1)%nat
           && negb (Cloud_Result_eqb (send_answer ev e) Cloud_Result_OK)
        then [Log_Debug (send_warning ev)
                [LogStr (CloudResultToString (send_answer ev e))]]
        else []).
Proof.
  destruct ev as [timer | [ | | n] | ec | v | msg | c | sig]; run_handler;
    cbn [with_sends_ok with_send_results ConsumeEventLoopTimerEvent_result
         SendTelemetry_result SendUploadEnabledChanged_result SendMoved_result
         SendDeviceDetails_result time_result rand_result send_answer send_warning].
  - destruct (ConsumeEventLoopTimerEvent_result e =? 0); cbn; [ | reflexivity].
    destruct (isConnected g); cbn; [ | reflexivity].
    destruct (telemetryUploadEnabled g); cbn.
    + destruct (SendTelemetry_result e); reflexivity.
    + destruct (SendTelemetry_result e); reflexivity.
  - destruct (SendUploadEnabledChanged_result e); reflexivity.
  - destruct (SendMoved_result e); reflexivity.
  - reflexivity.
  - reflexivity.
  - destruct (SendUploadEnabledChanged_result e); reflexivity.
  - reflexivity.
  - destruct c; cbn; [ | reflexivity]. destruct (SendDeviceDetails_result e); reflexivity.
  - reflexivity.
Qed.

(** C8: for every handler and every answer of the cloud sends (OK,
    NoNetwork or OtherFailure), the globals after the handler are those
    of the run in which every send returned OK, and the calls are those
    of that run followed, exactly when a send was made and did not
    return OK, by one Log_Debug warning that carries the text of the
    result: every failed send (telemetry, upload-enabled notification,
    moved event, device details) is logged, once, and that is all the
    failure does; it changes no global and causes no second send.  A
    handler makes at most one send, and one that sends leaves
    [exitCode] as it was.  After a tick in Connected with upload enabled
    whose send failed, the state is still Connected with upload
    enabled, [exitCode] is unchanged, and the next tick makes one
    Cloud_SendTelemetry call again. *)
Theorem failed_send_is_only_logged :
  (forall (ev : Event) (e : Env) (g : Globals),
     let r := handle ev e g in
     let r_ok := handle ev (with_sends_ok e) g in
     let failed :=
       (count is_cloud_send (result_trace r) =? 1)%nat
       && negb (Cloud_Result_eqb (send_answer ev e) Cloud_Result_OK) in
     result_globals r = result_globals r_ok /\
     without_log (result_trace r) = without_log (result_trace r_ok) /\
     (count is_cloud_send (result_trace r) <= 1)%nat /\
     (count is_cloud_send (result_trace r) = 1%nat ->
      exitCode (result_globals r) = exitCode g) /\
     result_trace r
     = result_trace r_ok
       ++ (if failed
           then [Log_Debug (send_warning ev)
                   [LogStr (CloudResultToString (send_answer ev e))]]
           else []) /\
     count is_log (result_trace r)
     = (count is_log (result_trace r_ok) + (if failed then 1 else 0))%nat) /\
  (forall (timer : Z) (e1 e2 : Env) (g : Globals),
     isConnected g = true ->
     telemetryUploadEnabled g = true ->
     ConsumeEventLoopTimerEvent_result e1 = 0 ->
     ConsumeEventLoopTimerEvent_result e2 = 0 ->
     SendTelemetry_result e1 <> Cloud_Result_OK ->
     let r1 := handle (TimerTick timer) e1 g in
     let r2 := handle (TimerTick timer) e2 (result_globals r1) in
     exitCode (result_globals r1) = exitCode g /\
     isConnected (result_globals r1) = true /\
     telemetryUploadEnabled (result_globals r1) = true /\
     count is_SendTelemetry (result_trace r1) = 1%nat /\
     count is_log (result_trace r1) = 1%nat /\
     count is_SendTelemetry (result_trace r2) = 1%nat).
Proof.
  split.
  - intros ev e g. cbv zeta.
    destruct (failed_send_same_globals ev e g) as [Hg Ht].
    destruct (send_at_most_once ev e g) as [Hle Hex].
    pose proof (failed_send_trace ev e g) as Htr.
    split; [assumption | ]. split; [assumption | ]. split; [assumption | ].
    split; [assumption | ]. split; [assumption | ].
    rewrite Htr at 1. rewrite count_app. f_equal.
    destruct ((count is_cloud_send (result_trace (handle ev e g)) =? 1)%nat
              && negb (Cloud_Result_eqb (send_answer ev e) Cloud_Result_OK));
      reflexivity.
  - intros timer e1 e2 g Hconn Hup Hc1 Hc2 Hfail. cbv zeta. cbn [handle].
    destruct (tick_connected_enabled timer e1 g Hc1 Hconn Hup) as [Hg1 Ht1].
    cbv zeta in Hg1, Ht1. rewrite Hg1.
    assert (Hconn1 : isConnected
              (with_temperature
                 (F32.add (temperature g) (simulated_delta (rand_result e1))) g) = true)
      by exact Hconn.
    assert (Hup1 : telemetryUploadEnabled
              (with_temperature
                 (F32.add (temperature g) (simulated_delta (rand_result e1))) g) = true)
      by exact Hup.
    destruct (tick_connected_enabled timer e2 _ Hc2 Hconn1 Hup1) as [_ Ht2].
    cbv zeta in Ht2.
    repeat split; try assumption.
    + run_handler. rewrite Hc1. cbn. rewrite Hconn. cbn. rewrite Hup. cbn.
      destruct (SendTelemetry_result e1); reflexivity.
    + run_handler. rewrite Hc1. cbn. rewrite Hconn. cbn. rewrite Hup. cbn.
      destruct (SendTelemetry_result e1); [congruence | reflexivity | reflexivity].
    + run_handler. rewrite Hc2. cbn. rewrite Hconn. cbn. rewrite Hup. cbn.
      destruct (SendTelemetry_result e2); reflexivity.
Qed.

Lemma failed_send_is_only_logged_witness :
  let g := with_telemetryUploadEnabled true (with_isConnected true initial_globals) in
  let r1 := handle (TimerTick 8192) (env_no_network 33) g in
  let r2 := handle (TimerTick 8192) (env_no_network 5) (result_globals r1) in
  let rb := handle (ButtonPress UserInterface_Button_B) (env_no_network 0) g in
  (exitCode (result_globals r1) = exitCode g /\
   isConnected (result_globals r1) = true /\
   telemetryUploadEnabled (result_globals r1) = true /\
   count is_SendTelemetry (result_trace r1) = 1%nat /\
   count is_log (result_trace r1) = 1%nat /\
   count is_SendTelemetry (result_trace r2) = 1%nat) /\
  count is_cloud_send (result_trace rb) = 1%nat /\
  exitCode (result_globals rb) = exitCode g /\
  result_trace rb
  = [Log_Debug (line "INFO: Device moved.") []; C_time;
     Cloud_SendThermometerMovedEvent 1700000000;
     Log_Debug (line "WARNING: Could not send thermometer moved event to cloud: %s")
       [LogStr "No network connection available"]].
Proof.
  cbv zeta. split; [ | split; [reflexivity | split] ].
  - apply (proj2 failed_send_is_only_logged 8192 (env_no_network 33) (env_no_network 5)
             (with_telemetryUploadEnabled true (with_isConnected true initial_globals)));
      first [reflexivity | discriminate].
  - pose proof (proj1 failed_send_is_only_logged (ButtonPress UserInterface_Button_B)
                  (env_no_network 0)
                  (with_telemetryUploadEnabled true (with_isConnected true initial_globals)))
      as H.
    cbv zeta in H. destruct H as [_ [_ [_ [Hx _]]]]. apply Hx. reflexivity.
  - pose proof (proj1 failed_send_is_only_logged (ButtonPress UserInterface_Button_B)
                  (env_no_network 0)
                  (with_telemetryUploadEnabled true (with_isConnected true initial_globals)))
      as H.
    cbv zeta in H. destruct H as [_ [_ [_ [_ [Ht _]]]]]. exact Ht.
Defined.

(** ** Startup and shutdown *)

Ltac run_lifecycle :=
  cbv [InitPeripheralsAndHandlers ClosePeripheralsAndHandlers CloseFdAndPrintError
       set_eventLoop set_telemetryTimer set_i2cFd
       bind ret get modify call call_void read_errno
       result_globals result_trace result_value without_log
       acquisition_order release_order];
  cbn [fst snd app with_eventLoop with_telemetryTimer with_i2cFd
       exitCode i2cFd eventLoop telemetryTimer isConnected
       telemetryUploadEnabled temperature].

Ltac split_on_answers e :=
  destruct (EventLoop_Create_result e =? NULL); cbn;
  [ | destruct (CreateEventLoopPeriodicTimer_result e =? NULL); cbn;
      [ | destruct (ExitCode_eqb (UserInterface_Initialise_result e) ExitCode_Success)
            eqn:Hui; cbn;
          [ destruct (I2CMaster_Open_result e =? -1); cbn;
            [ | destruct (I2CMaster_SetBusSpeed_result e =? 0); cbn;
                [ destruct (I2CMaster_SetTimeout_result e =? 0); cbn;
                  [ destruct (I2CMaster_SetDefaultTargetAddress_result e =? 0); cbn
                  | ]
                | ] ]
          | ] ] ].

Lemma Init_acquisitions (e : Env) (g : Globals) :
  let r := InitPeripheralsAndHandlers e g in
  (exists rest, acquisition_order (result_trace r) ++ rest = all_acquisitions) /\
  (result_value r = ExitCode_Success ->
   acquisition_order (result_trace r) = all_acquisitions) /\
  temperature (result_globals r) = temperature g.
Proof.
  cbv zeta. run_lifecycle. split_on_answers e.
  all: split; [ | split; [ | reflexivity] ].
  all: try discriminate.
  all: try (intros _; reflexivity).
  all: try (eexists; reflexivity).
  intros H. apply ExitCode_eqb_eq in H. rewrite H in Hui. discriminate.
Qed.

Lemma Close_calls (e : Env) (g : Globals) :
  let r := ClosePeripheralsAndHandlers e g in
  without_log (result_trace r)
  = [DisposeEventLoopTimer (telemetryTimer g); Cloud_Cleanup; UserInterface_Cleanup;
     Connection_Cleanup; EventLoop_Close (eventLoop g)]
    ++ (if i2cFd g >=? 0 then [C_close (i2cFd g)] else []) /\
  result_globals r = g.
Proof.
  cbv zeta. run_lifecycle.
  destruct (i2cFd g >=? 0); cbn; [ | now split].
  destruct (close_result e =? 0); cbn; now split.
Qed.

(** C7 (as stated) fails: the releases are not in the reverse order of
    the acquisitions.  After a fully successful startup the acquisition
    order is loop, timer, button/UI, sensor, remote channel, while the
    shutdown releases timer, remote channel, button/UI, (connection,)
    loop, sensor. *)
Lemma shutdown_is_not_reverse_of_startup :
  let r := InitPeripheralsAndHandlers (env_ok 0) initial_globals in
  let released_in_order :=
    filter (fun x => negb (Resource_eqb x Connection))
      (release_order
         (result_trace (ClosePeripheralsAndHandlers (env_ok 0) (result_globals r)))) in
  result_value r = ExitCode_Success /\
  released_in_order = [Timer; RemoteSyncChannel; ButtonUI; DispatchLoop; Sensor] /\
  rev (acquisition_order (result_trace r))
  = [RemoteSyncChannel; Sensor; ButtonUI; Timer; DispatchLoop] /\
  released_in_order <> rev (acquisition_order (result_trace r)).
Proof.
  cbv zeta. repeat split. vm_compute. discriminate.
Qed.

(** C7 (amended): ClosePeripheralsAndHandlers always makes the release
    calls in the fixed order timer, remote channel (Cloud_Cleanup),
    button/UI, Connection_Cleanup, dispatch loop, and then closes the
    sensor descriptor when it is non-negative; no answer of the outside
    world skips a later release, and the globals stay as they were.  A
    startup that returns ExitCode_Success has acquired, in this order,
    dispatch loop, timer, button/UI, sensor, remote channel (and any
    startup acquires a prefix of that list), so the release order is not
    the reverse of the acquisition order. *)
Theorem shutdown_releases_in_fixed_order :
  forall (e e' : Env) (g : Globals),
    let r := InitPeripheralsAndHandlers e g in
    let c := ClosePeripheralsAndHandlers e' (result_globals r) in
    without_log (result_trace c)
    = [DisposeEventLoopTimer (telemetryTimer (result_globals r));
       Cloud_Cleanup; UserInterface_Cleanup; Connection_Cleanup;
       EventLoop_Close (eventLoop (result_globals r))]
      ++ (if i2cFd (result_globals r) >=? 0
          then [C_close (i2cFd (result_globals r))] else []) /\
    release_order (result_trace c)
    = [Timer; RemoteSyncChannel; ButtonUI; Connection; DispatchLoop]
      ++ (if i2cFd (result_globals r) >=? 0 then [Sensor] else []) /\
    result_globals c = result_globals r /\
    (exists rest, acquisition_order (result_trace r) ++ rest = all_acquisitions) /\
    (result_value r = ExitCode_Success ->
     acquisition_order (result_trace r)
     = [DispatchLoop; Timer; ButtonUI; Sensor; RemoteSyncChannel]).
Proof.
  intros e e' g. cbv zeta.
  destruct (Init_acquisitions e g) as [Hpre [Hall _]]. cbv zeta in Hpre, Hall.
  destruct (Close_calls e' (result_globals (InitPeripheralsAndHandlers e g)))
    as [Hcalls Hg]. cbv zeta in Hcalls, Hg.
  repeat split; try assumption.
  clear. generalize (result_globals (InitPeripheralsAndHandlers e g)) as g1. intros g1.
  run_lifecycle.
  destruct (i2cFd g1 >=? 0); cbn; [ | reflexivity].
  destruct (close_result e' =? 0); reflexivity.
Qed.

Lemma shutdown_releases_in_fixed_order_witness :
  result_value (InitPeripheralsAndHandlers (env_ok 0) initial_globals) = ExitCode_Success /\
  acquisition_order (result_trace (InitPeripheralsAndHandlers (env_ok 0) initial_globals))
  = [DispatchLoop; Timer; ButtonUI; Sensor; RemoteSyncChannel].
Proof.
  split; [reflexivity | ].
  apply (shutdown_releases_in_fixed_order (env_ok 0) (env_ok 0) initial_globals).
  reflexivity.
Defined.

(** ** The simulated temperature *)

Lemma handle_temperature (ev : Event) (e : Env) (g : Globals) :
  temperature (result_globals (handle ev e g))
  = match ev with
    | TimerTick _ =>
        if tick_sends e g
        then F32.add (temperature g) (simulated_delta (rand_result e))
        else temperature g
    | _ => temperature g
    end.
Proof.
  destruct ev as [timer | [ | | n] | ec | v | msg | c | sig]; run_handler; unfold tick_sends.
  - destruct (ConsumeEventLoopTimerEvent_result e =? 0); cbn; [ | reflexivity].
    destruct (isConnected g); cbn; [ | reflexivity].
    destruct (telemetryUploadEnabled g); cbn; [ | reflexivity].
    destruct (SendTelemetry_result e); reflexivity.
  - destruct (SendUploadEnabledChanged_result e); reflexivity.
  - destruct (SendMoved_result e); reflexivity.
  - reflexivity.
  - reflexivity.
  - destruct (SendUploadEnabledChanged_result e); reflexivity.
  - reflexivity.
  - destruct c; cbn; [ | reflexivity]. destruct (SendDeviceDetails_result e); reflexivity.
  - reflexivity.
Qed.

(** C10: the temperature of the static [telemetry] starts at 50.0; a
    handler changes it only if it is the timer handler, the timer event
    was consumed, [isConnected] and [telemetryUploadEnabled] hold, and
    then the new value is the old one plus the simulated delta; every
    other handler, the startup and the shutdown leave it unchanged.  In
    the perturbing case the value passed to Cloud_SendTelemetry is the
    new value (computed before the call) and it is the stored value
    whatever the send returns. *)
Theorem temperature_changed_only_by_sending_tick :
  temperature initial_globals = F32.of_int 50 /\
  (F32.to_Q (temperature initial_globals) == 50)%Q /\
  (forall (ev : Event) (e : Env) (g : Globals),
     temperature (result_globals (handle ev e g))
     = match ev with
       | TimerTick _ =>
           if tick_sends e g
           then F32.add (temperature g) (simulated_delta (rand_result e))
           else temperature g
       | _ => temperature g
       end) /\
  (forall (timer : Z) (e : Env) (g : Globals),
     if tick_sends e g then
       let r := handle (TimerTick timer) e g in
       let t' := F32.add (temperature g) (simulated_delta (rand_result e)) in
       without_log (result_trace r)
       = [ConsumeEventLoopTimerEvent timer; C_time; C_rand;
          Cloud_SendTelemetry t' (time_result e)] /\
       temperature (result_globals r) = t'
     else True) /\
  (forall (e : Env) (g : Globals),
     temperature (result_globals (InitPeripheralsAndHandlers e g)) = temperature g /\
     temperature (result_globals (ClosePeripheralsAndHandlers e g)) = temperature g).
Proof.
  split; [reflexivity | ]. split; [reflexivity | ].
  split; [exact handle_temperature | ]. split.
  - intros timer e g. destruct (tick_sends e g) eqn:Hs; [ | exact I].
    unfold tick_sends in Hs.
    apply andb_true_iff in Hs as [Hs Hup]. apply andb_true_iff in Hs as [Hc Hconn].
    apply Z.eqb_eq in Hc. cbv zeta. cbn [handle].
    destruct (tick_connected_enabled timer e g Hc Hconn Hup) as [Hg Ht].
    cbv zeta in Hg, Ht. rewrite Hg, Ht. now split.
  - intros e g. split.
    + apply (Init_acquisitions e g).
    + destruct (Close_calls e g) as [_ Hg]. cbv zeta in Hg. now rewrite Hg.
Qed.

Lemma residue_in_residues (r : Z) : 0 <= r -> In (Z.rem r 41) residues.
Proof.
  intros Hr. pose proof (Z.rem_bound_pos r 41 Hr ltac:(lia)) as Hb.
  unfold residues. apply in_map_iff. exists (Z.to_nat (Z.rem r 41)). split.
  - apply Z2Nat.id. lia.
  - apply in_seq. lia.
Qed.

Lemma residues_checked :
  forallb (fun k => in_unit_interval (residue_delta k)
                    && first_step_within_one (residue_delta k)) residues = true.
Proof. vm_compute. reflexivity. Qed.

Lemma simulated_delta_checked (r : Z) :
  0 <= r ->
  in_unit_interval (simulated_delta r) = true /\
  first_step_within_one (simulated_delta r) = true.
Proof.
  intros Hr. pose proof residues_checked as H.
  rewrite forallb_forall in H. specialize (H _ (residue_in_residues r Hr)).
  apply andb_true_iff in H. exact H.
Qed.

(** C9 (as stated) fails in its second half: the sum is rounded to
    single precision.  After connecting, enabling the upload and 19
    ticks the temperature is 64 - 2^-18, the largest float below 64;
    with [rand() % 41 = 40] the delta is exactly +1.0 and the next tick
    sends 65.0, which is 1 + 2^-18 away from the previous value. *)
Lemma measurement_moves_by_more_than_one :
  let g := fst (run edge_run initial_globals) in
  let r := handle (TimerTick 8192) (env_ok 40) g in
  isConnected g = true /\ telemetryUploadEnabled g = true /\
  temperature g = S754_finite false 16777215 (-18) /\
  simulated_delta 40 = F32.of_int 1 /\
  filter is_SendTelemetry (result_trace r)
  = [Cloud_SendTelemetry (F32.of_int 65) (time_result (env_ok 40))] /\
  (F32.to_Q (F32.of_int 65) - F32.to_Q (temperature g) == 1 + (1 # 262144))%Q /\
  ~ (F32.to_Q (F32.of_int 65) - F32.to_Q (temperature g) <= 1)%Q /\
  F32.ltb (F32.of_int 1) (F32.sub (F32.of_int 65) (temperature g)) = true.
Proof.
  cbv zeta. repeat split; try (vm_compute; reflexivity).
  vm_compute. intros H. apply H. reflexivity.
Qed.

(** C9 (amended): on every tick in Connected with upload enabled (the
    timer event consumed, [rand()] non-negative) the delta is a finite
    float in the closed interval [-1.0, +1.0], and the measurement sent
    is the single-precision sum of the previous value and that delta.
    The sent value is within 1.0 of the previous one whenever that sum
    is exact, and always on the first measurement from 50.0; the
    rounding of the sum is not bounded by 1.0 in general. *)
Theorem simulated_delta_in_unit_interval :
  forall (timer : Z) (e : Env) (g : Globals),
    ConsumeEventLoopTimerEvent_result e = 0 ->
    isConnected g = true ->
    telemetryUploadEnabled g = true ->
    0 <= rand_result e ->
    let d := simulated_delta (rand_result e) in
    let sent := F32.add (temperature g) d in
    F32.is_finite d = true /\
    (-1 <= F32.to_Q d <= 1)%Q /\
    F32.leb (F32.of_int (-1)) d = true /\ F32.leb d (F32.of_int 1) = true /\
    filter is_SendTelemetry (result_trace (handle (TimerTick timer) e g))
    = [Cloud_SendTelemetry sent (time_result e)] /\
    temperature (result_globals (handle (TimerTick timer) e g)) = sent /\
    ((F32.to_Q sent == F32.to_Q (temperature g) + F32.to_Q d)%Q ->
     (-1 <= F32.to_Q sent - F32.to_Q (temperature g) <= 1)%Q) /\
    (temperature g = F32.of_int 50 ->
     F32.is_finite sent = true /\
     (-1 <= F32.to_Q sent - 50 <= 1)%Q).
Proof.
  intros timer e g Hc Hconn Hup Hr. cbv zeta.
  destruct (simulated_delta_checked (rand_result e) Hr) as [Hd Hfirst].
  unfold in_unit_interval in Hd.
  repeat (apply andb_true_iff in Hd; destruct Hd as [Hd ?]).
  assert (Hlo : (-1 <= F32.to_Q (simulated_delta (rand_result e)))%Q)
    by now apply Qle_bool_iff.
  assert (Hhi : (F32.to_Q (simulated_delta (rand_result e)) <= 1)%Q)
    by now apply Qle_bool_iff.
  destruct (tick_connected_enabled timer e g Hc Hconn Hup) as [Hg Ht].
  cbv zeta in Hg, Ht. cbn [handle].
  split; [assumption | ]. split; [now split | ].
  split; [assumption | ]. split; [assumption | ].
  split; [ | split; [ | split] ].
  - run_handler. rewrite Hc. cbn. rewrite Hconn. cbn. rewrite Hup. cbn.
    destruct (SendTelemetry_result e); reflexivity.
  - now rewrite Hg.
  - intros Hexact. rewrite Hexact. split; lra.
  - intros H50. rewrite H50. unfold first_step_within_one in Hfirst.
    repeat (apply andb_true_iff in Hfirst; destruct Hfirst as [Hfirst ?]).
    split; [assumption | ]. split; now apply Qle_bool_iff.
Qed.

Lemma simulated_delta_in_unit_interval_witness :
  let g := with_telemetryUploadEnabled true (with_isConnected true initial_globals) in
  let d := simulated_delta 12345 in
  (-1 <= F32.to_Q d <= 1)%Q /\
  filter is_SendTelemetry (result_trace (handle (TimerTick 8192) (env_ok 12345) g))
  = [Cloud_SendTelemetry (F32.add (temperature g) d) (time_result (env_ok 12345))].
Proof.
  cbv zeta.
  pose proof (simulated_delta_in_unit_interval 8192 (env_ok 12345)
                (with_telemetryUploadEnabled true (with_isConnected true initial_globals))
                eq_refl eq_refl eq_refl ltac:(cbn; lia)) as H.
  cbv zeta in H. destruct H as [_ [Hb [_ [_ [Ht _]]]]].
  split; [exact Hb | exact Ht].
Defined.

(** * Further properties of the handlers *)

Lemma run_cons (ev : Event) (e : Env) (evs : list (Event * Env)) (g : Globals) :
  run ((ev, e) :: evs) g
  = (fst (run evs (result_globals (handle ev e g))),
     result_trace (handle ev e g) ++ snd (run evs (result_globals (handle ev e g)))).
Proof.
  cbn [run]. now destruct (run evs (result_globals (handle ev e g))).
Qed.

Lemma run_app (evs1 evs2 : list (Event * Env)) (g : Globals) :
  run (evs1 ++ evs2) g
  = (fst (run evs2 (fst (run evs1 g))),
     snd (run evs1 g) ++ snd (run evs2 (fst (run evs1 g)))).
Proof.
  revert g. induction evs1 as [ | [ev e] evs1 IH]; intros g.
  - cbn. now destruct (run evs2 g).
  - cbn [app]. rewrite !run_cons, IH. cbn [fst snd]. now rewrite app_assoc.
Qed.

(** What a handler does to the globals, field by field. *)
Lemma handle_globals (ev : Event) (e : Env) (g : Globals) :
  let g' := result_globals (handle ev e g) in
  i2cFd g' = i2cFd g /\ eventLoop g' = eventLoop g /\
  telemetryTimer g' = telemetryTimer g /\
  isConnected g'
  = match ev with RemoteConnectionChanged c => c | _ => isConnected g end /\
  exitCode g'
  = match ev with
    | FatalCondition ec => ec
    | TerminationSignal _ => ExitCode_TermHandler_SigTerm
    | TimerTick _ =>
        if ConsumeEventLoopTimerEvent_result e =? 0 then exitCode g
        else ExitCode_TelemetryTimer_Consume
    | _ => exitCode g
    end.
Proof.
  cbv zeta.
  destruct ev as [timer | [ | | n] | ec | v | msg | c | sig]; run_handler.
  - destruct (ConsumeEventLoopTimerEvent_result e =? 0); cbn; [ | now repeat split].
    destruct (isConnected g) eqn:Hconn; cbn; [ | repeat split; assumption].
    destruct (telemetryUploadEnabled g); cbn; [ | repeat split; assumption].
    destruct (SendTelemetry_result e); repeat split; assumption.
  - destruct (SendUploadEnabledChanged_result e); now repeat split.
  - destruct (SendMoved_result e); now repeat split.
  - now repeat split.
  - now repeat split.
  - destruct (SendUploadEnabledChanged_result e); now repeat split.
  - now repeat split.
  - destruct c; cbn; [ | now repeat split].
    destruct (SendDeviceDetails_result e); now repeat split.
  - now repeat split.
Qed.

(** X1: button B changes no global and makes, besides log lines, one
    time() call and one Cloud_SendThermometerMovedEvent call that carries
    the time just read, whatever the send returns; a button that is
    neither A nor B makes no call and changes nothing. *)
Theorem button_B_reports_move_and_other_buttons_are_ignored :
  forall (e : Env) (g : Globals),
    result_globals (handle (ButtonPress UserInterface_Button_B) e g) = g /\
    without_log (result_trace (handle (ButtonPress UserInterface_Button_B) e g))
    = [C_time; Cloud_SendThermometerMovedEvent (time_result e)] /\
    count is_log (result_trace (handle (ButtonPress UserInterface_Button_B) e g))
    = (if Cloud_Result_eqb (SendMoved_result e) Cloud_Result_OK then 1 else 2)%nat /\
    (forall n : nat,
       handle (ButtonPress (UserInterface_Button_Other n)) e g = (tt, g, [])).
Proof.
  intros e g. repeat split; run_handler; destruct (SendMoved_result e); reflexivity.
Qed.

Lemma handlers_keep_i2cFd (evs : list (Event * Env)) (g : Globals) :
  i2cFd (fst (run evs g)) = i2cFd g.
Proof.
  revert g. induction evs as [ | [ev e] evs IH]; intros g; [reflexivity | ].
  rewrite run_cons. cbn [fst]. rewrite IH. apply (handle_globals ev e g).
Qed.

(** X2: no handler, and so no sequence of handlers, changes the handles
    [i2cFd], [eventLoop] and [telemetryTimer]. *)
Theorem handlers_keep_resource_handles :
  forall (evs : list (Event * Env)) (g : Globals),
    i2cFd (fst (run evs g)) = i2cFd g /\
    eventLoop (fst (run evs g)) = eventLoop g /\
    telemetryTimer (fst (run evs g)) = telemetryTimer g.
Proof.
  induction evs as [ | [ev e] evs IH]; intros g.
  - now repeat split.
  - rewrite run_cons. cbn [fst].
    destruct (IH (result_globals (handle ev e g))) as [H1 [H2 H3]].
    destruct (handle_globals ev e g) as [G1 [G2 [G3 _]]]. cbv zeta in G1, G2, G3.
    rewrite H1, H2, H3. repeat split; assumption.
Qed.

(** X3: after any sequence of handlers [isConnected] is the argument of
    the last ConnectionChangedCallbackHandler call of the sequence, and
    its old value when there was none. *)
Theorem connection_status_is_last_notification :
  forall (evs : list (Event * Env)) (g : Globals),
    isConnected (fst (run evs g)) = last_connection evs (isConnected g).
Proof.
  induction evs as [ | [ev e] evs IH]; intros g.
  - reflexivity.
  - rewrite run_cons. cbn [fst]. rewrite IH.
    destruct (handle_globals ev e g) as [_ [_ [_ [Hc _]]]]. cbv zeta in Hc.
    rewrite Hc. now destruct ev.
Qed.

(** X4: [exitCode] is written only by ExitCodeCallbackHandler, by the
    signal handler and by a timer tick whose event could not be consumed:
    a sequence of handler runs without any of these leaves [exitCode] as
    it was, whatever the sends return. *)
Theorem exit_code_written_only_by_fatal_paths :
  forall (evs : list (Event * Env)) (g : Globals),
    forallb (fun p => negb (may_set_exitCode p)) evs = true ->
    exitCode (fst (run evs g)) = exitCode g.
Proof.
  induction evs as [ | [ev e] evs IH]; intros g Hall.
  - reflexivity.
  - cbn [forallb] in Hall. apply andb_true_iff in Hall as [Hev Hrest].
    rewrite run_cons. cbn [fst]. rewrite (IH _ Hrest).
    destruct (handle_globals ev e g) as [_ [_ [_ [_ Hx]]]]. cbv zeta in Hx.
    rewrite Hx. unfold may_set_exitCode in Hev. cbn [fst snd] in Hev.
    destruct ev; try reflexivity; try discriminate.
    apply negb_true_iff, negb_false_iff in Hev. now rewrite Hev.
Qed.

Lemma exit_code_written_only_by_fatal_paths_witness :
  exitCode (fst (run [(RemoteConnectionChanged true, env_no_network 0);
                      (ButtonPress UserInterface_Button_A, env_no_network 0);
                      (TimerTick 8192, env_no_network 17);
                      (ButtonPress UserInterface_Button_B, env_no_network 0);
                      (RemoteCommandInvoked "check the sensor", env_ok 0)]
                  initial_globals))
  = exitCode initial_globals.
Proof.
  apply (exit_code_written_only_by_fatal_paths
           [(RemoteConnectionChanged true, env_no_network 0);
            (ButtonPress UserInterface_Button_A, env_no_network 0);
            (TimerTick 8192, env_no_network 17);
            (ButtonPress UserInterface_Button_B, env_no_network 0);
            (RemoteCommandInvoked "check the sensor", env_ok 0)]
           initial_globals).
  reflexivity.
Defined.

(** X5: the last write of [exitCode] wins.  After any sequence of
    handlers, ExitCodeCallbackHandler(ec) leaves [exitCode = ec] and the
    signal handler leaves ExitCode_TermHandler_SigTerm, whatever value
    was recorded before; neither makes a call (the signal handler does
    not log). *)
Theorem exit_code_last_write_wins :
  forall (evs : list (Event * Env)) (e : Env) (g : Globals) (ec : ExitCode) (sig : Z),
    exitCode (fst (run (evs ++ [(FatalCondition ec, e)]) g)) = ec /\
    exitCode (fst (run (evs ++ [(TerminationSignal sig, e)]) g))
    = ExitCode_TermHandler_SigTerm /\
    snd (run (evs ++ [(FatalCondition ec, e)]) g) = snd (run evs g) /\
    snd (run (evs ++ [(TerminationSignal sig, e)]) g) = snd (run evs g).
Proof.
  intros evs e g ec sig. rewrite !run_app. cbn [fst snd run handle].
  repeat split; try reflexivity; cbn; now rewrite app_nil_r.
Qed.

(** X6: when ConsumeEventLoopTimerEvent does not return 0, the timer
    handler records ExitCode_TelemetryTimer_Consume and returns at once:
    that call is its only call (no time(), no rand(), no send, no log)
    and nothing else changes, also when connected with upload enabled. *)
Theorem tick_consume_failure_is_fatal :
  forall (timer : Z) (e : Env) (g : Globals),
    ConsumeEventLoopTimerEvent_result e <> 0 ->
    handle (TimerTick timer) e g
    = (tt, with_exitCode ExitCode_TelemetryTimer_Consume g,
       [ConsumeEventLoopTimerEvent timer]).
Proof.
  intros timer e g Hc. apply Z.eqb_neq in Hc. run_handler. rewrite Hc. reflexivity.
Qed.

Lemma tick_consume_failure_is_fatal_witness :
  let g := with_telemetryUploadEnabled true (with_isConnected true initial_globals) in
  let e := mkEnv 9 1700000000 0 0 (-1) Cloud_Result_OK Cloud_Result_OK Cloud_Result_OK
             Cloud_Result_OK 0 0 ExitCode_Success 0 0 0 0 0 ExitCode_Success in
  handle (TimerTick 8192) e g
  = (tt, with_exitCode ExitCode_TelemetryTimer_Consume g,
     [ConsumeEventLoopTimerEvent 8192]).
Proof.
  cbv zeta.
  apply (tick_consume_failure_is_fatal 8192
           (mkEnv 9 1700000000 0 0 (-1) Cloud_Result_OK Cloud_Result_OK Cloud_Result_OK
              Cloud_Result_OK 0 0 ExitCode_Success 0 0 0 0 0 ExitCode_Success)
           (with_telemetryUploadEnabled true (with_isConnected true initial_globals))).
  cbn. discriminate.
Defined.

(** X7: a timer tick calls rand() exactly when it sends a measurement,
    that is when the event was consumed, the device is connected and the
    upload is enabled; a consumed tick that does not send changes no
    global, and when connected with upload disabled it logs one line. *)
Theorem tick_draws_random_only_when_sending :
  forall (timer : Z) (e : Env) (g : Globals),
    let r := handle (TimerTick timer) e g in
    count is_rand (result_trace r) = (if tick_sends e g then 1 else 0)%nat /\
    count is_SendTelemetry (result_trace r) = (if tick_sends e g then 1 else 0)%nat /\
    (if tick_sends e g then True
     else if ConsumeEventLoopTimerEvent_result e =? 0
          then result_globals r = g /\
               count is_log (result_trace r) = (if isConnected g then 1 else 0)%nat
          else True).
Proof.
  intros timer e g. cbv zeta. unfold tick_sends. run_handler.
  destruct (ConsumeEventLoopTimerEvent_result e =? 0); cbn; [ | now repeat split].
  destruct (isConnected g); cbn; [ | now repeat split].
  destruct (telemetryUploadEnabled g); cbn; [ | now repeat split].
  destruct (SendTelemetry_result e); now repeat split.
Qed.

Lemma Globals_eta (g : Globals) :
  mkGlobals (exitCode g) (i2cFd g) (eventLoop g) (telemetryTimer g)
    (isConnected g) (telemetryUploadEnabled g) (temperature g) = g.
Proof. now destruct g. Qed.

(** X8: two presses of button A in a row restore the globals exactly,
    whatever the two sends return, and make the indicator and echo calls
    for the toggled and then for the original value. *)
Theorem two_presses_of_A_restore_state :
  forall (e1 e2 : Env) (g : Globals),
    let r := run [(ButtonPress UserInterface_Button_A, e1);
                  (ButtonPress UserInterface_Button_A, e2)] g in
    fst r = g /\
    without_log (snd r)
    = [UserInterface_SetStatus (negb (telemetryUploadEnabled g));
       Cloud_SendThermometerTelemetryUploadEnabledChangedEvent
         (negb (telemetryUploadEnabled g));
       UserInterface_SetStatus (telemetryUploadEnabled g);
       Cloud_SendThermometerTelemetryUploadEnabledChangedEvent
         (telemetryUploadEnabled g)].
Proof.
  intros e1 e2 g. cbv zeta. rewrite !run_cons. cbn [run fst snd handle].
  rewrite app_nil_r, without_log_app, !ButtonA_trace, !ButtonA_globals.
  cbn [telemetryUploadEnabled with_telemetryUploadEnabled app].
  rewrite negb_involutive. split; [ | reflexivity].
  unfold with_telemetryUploadEnabled. cbn. apply Globals_eta.
Qed.

(** X9: the handlers do not compare with the current value.  A remote
    property change to the value the flag already has changes no global
    but still makes the indicator call and sends the echo; receiving the
    same value twice gives the globals of receiving it once, with both
    calls made twice.  A repeated connection notification likewise gives
    the globals of a single one. *)
Theorem repeated_notifications_are_not_filtered :
  forall (e1 e2 : Env) (g : Globals) (v c : bool),
    (let r := handle (RemotePropertyChanged (telemetryUploadEnabled g)) e1 g in
     result_globals r = g /\
     without_log (result_trace r)
     = [UserInterface_SetStatus (telemetryUploadEnabled g);
        Cloud_SendThermometerTelemetryUploadEnabledChangedEvent
          (telemetryUploadEnabled g)]) /\
    fst (run [(RemotePropertyChanged v, e1); (RemotePropertyChanged v, e2)] g)
    = fst (run [(RemotePropertyChanged v, e1)] g) /\
    without_log (snd (run [(RemotePropertyChanged v, e1);
                           (RemotePropertyChanged v, e2)] g))
    = [UserInterface_SetStatus v;
       Cloud_SendThermometerTelemetryUploadEnabledChangedEvent v;
       UserInterface_SetStatus v;
       Cloud_SendThermometerTelemetryUploadEnabledChangedEvent v] /\
    fst (run [(RemoteConnectionChanged c, e1); (RemoteConnectionChanged c, e2)] g)
    = fst (run [(RemoteConnectionChanged c, e1)] g).
Proof.
  intros e1 e2 g v c. split; [ | split; [ | split] ].
  - cbv zeta. cbn [handle]. rewrite RemoteProperty_globals, RemoteProperty_trace.
    split; [ | reflexivity]. unfold with_telemetryUploadEnabled. apply Globals_eta.
  - rewrite !run_cons. cbn [run fst handle]. now rewrite !RemoteProperty_globals.
  - rewrite !run_cons. cbn [run fst snd handle].
    now rewrite app_nil_r, without_log_app, !RemoteProperty_trace.
  - rewrite !run_cons. cbn [run fst handle]. now rewrite !ConnectionChanged_globals.
Qed.

(** * Further properties of startup and shutdown *)

Ltac unfold_startup :=
  cbv zeta; unfold startup_succeeds, startup_opens_i2c; run_lifecycle.

(** X10: InitPeripheralsAndHandlers returns ExitCode_Success exactly
    when the event loop and the timer were created, the user interface
    initialised, the I2C master opened and configured (bus speed,
    timeout, default target address) and Cloud_Initialize returned
    ExitCode_Success. *)
Theorem startup_succeeds_iff_every_step_does :
  forall (e : Env) (g : Globals),
    result_value (InitPeripheralsAndHandlers e g) = ExitCode_Success
    <-> startup_succeeds e = true /\ Cloud_Initialize_result e = ExitCode_Success.
Proof.
  intros e g. unfold_startup. split_on_answers e.
  all: try (split; [discriminate | intros [H _]; discriminate H]).
  - split; [intros H; now split | intros [_ H]; exact H].
  - split; [ | intros [H _]; discriminate H].
    intros H. apply ExitCode_eqb_eq in H. rewrite H in Hui. discriminate.
Qed.

Lemma startup_succeeds_iff_every_step_does_witness :
  result_value (InitPeripheralsAndHandlers (env_ok 0) initial_globals) = ExitCode_Success.
Proof.
  apply (proj2 (startup_succeeds_iff_every_step_does (env_ok 0) initial_globals)).
  split; reflexivity.
Defined.

(** X11: Cloud_Initialize is called only after every earlier step of the
    startup has succeeded, once, with the event loop just created and
    the connection context of Options_GetConnectionContext, and then its
    result is the result of the startup; when an earlier step fails it
    is not called. *)
Theorem cloud_is_initialised_last :
  forall (e : Env) (g : Globals),
    let r := InitPeripheralsAndHandlers e g in
    if startup_succeeds e then
      filter is_Cloud_Initialize (result_trace r)
      = [Cloud_Initialize (EventLoop_Create_result e)
           (Options_GetConnectionContext_result e)] /\
      result_value r = Cloud_Initialize_result e /\
      last (result_trace r) C_rand
      = Cloud_Initialize (EventLoop_Create_result e)
          (Options_GetConnectionContext_result e)
    else
      filter is_Cloud_Initialize (result_trace r) = [] /\
      result_value r <> ExitCode_Success.
Proof.
  intros e g. unfold_startup. split_on_answers e.
  all: try (split; [reflexivity | discriminate]).
  - now repeat split.
  - split; [reflexivity | ].
    intros H. apply ExitCode_eqb_eq in H. rewrite H in Hui. discriminate.
Qed.

(** X12: the startup itself never assigns [exitCode] (main does, from
    its result), [isConnected] or [telemetryUploadEnabled]; it always
    stores the answer of EventLoop_Create in [eventLoop], also when that
    is NULL.  It sets the indicator once, to the current value of
    [telemetryUploadEnabled], exactly when the user interface was
    initialised, and not at all when an earlier step failed. *)
Theorem startup_keeps_state_and_shows_indicator :
  forall (e : Env) (g : Globals),
    let r := InitPeripheralsAndHandlers e g in
    exitCode (result_globals r) = exitCode g /\
    isConnected (result_globals r) = isConnected g /\
    telemetryUploadEnabled (result_globals r) = telemetryUploadEnabled g /\
    eventLoop (result_globals r) = EventLoop_Create_result e /\
    filter is_SetStatus (result_trace r)
    = if startup_opens_i2c e
      then [UserInterface_SetStatus (telemetryUploadEnabled g)]
      else [].
Proof.
  intros e g. unfold_startup. split_on_answers e.
  all: now repeat split.
Qed.

(** X13: a descriptor that the startup opened is closed by the shutdown,
    also when a later step of the startup failed.  When the startup gets
    as far as I2CMaster_Open, [i2cFd] holds its answer and
    ClosePeripheralsAndHandlers makes exactly one close call, on that
    descriptor, if it is non-negative and none otherwise; when the
    startup fails earlier, [i2cFd] keeps its value, so from the initial
    -1 nothing is closed. *)
Theorem opened_descriptor_is_closed_at_shutdown :
  forall (e e' : Env) (g : Globals),
    let g1 := result_globals (InitPeripheralsAndHandlers e g) in
    i2cFd g1 = (if startup_opens_i2c e then I2CMaster_Open_result e else i2cFd g) /\
    filter is_close (result_trace (ClosePeripheralsAndHandlers e' g1))
    = (if i2cFd g1 >=? 0 then [C_close (i2cFd g1)] else []).
Proof.
  intros e e' g. cbv zeta. split.
  - unfold_startup. split_on_answers e; reflexivity.
  - generalize (result_globals (InitPeripheralsAndHandlers e g)) as g1. intros g1.
    run_lifecycle. destruct (i2cFd g1 >=? 0); cbn; [ | reflexivity].
    destruct (close_result e' =? 0); reflexivity.
Qed.

(** X14: a failing close() at shutdown is only logged.  The shutdown
    logs one line, and a second one exactly when the descriptor is
    non-negative and close() does not return 0; it changes no global, so
    the exit code is not affected. *)
Theorem close_failure_is_only_logged :
  forall (e : Env) (g : Globals),
    let r := ClosePeripheralsAndHandlers e g in
    result_globals r = g /\
    count is_log (result_trace r)
    = (if (i2cFd g >=? 0) && negb (close_result e =? 0) then 2%nat else 1%nat) /\
    last (result_trace r) C_rand
    = (if i2cFd g >=? 0
       then if close_result e =? 0 then C_close (i2cFd g)
            else Log_Debug (line "ERROR: Could not close fd %s: %s (%d).")
                   [LogStr "i2c"; LogStrerror (errno e); LogInt (errno e)]
       else Log_Debug (line "Closing file descriptors") []).
Proof.
  intros e g. cbv zeta. run_lifecycle.
  destruct (i2cFd g >=? 0); cbn; [ | now repeat split].
  destruct (close_result e =? 0); now repeat split.
Qed.

(** * Properties of the entry point *)

Lemma ExitCode_eqb_neq (a b : ExitCode) : ExitCode_eqb a b = false <-> a <> b.
Proof.
  split.
  - intros H Hab. apply ExitCode_eqb_eq in Hab. congruence.
  - intros H. destruct (ExitCode_eqb a b) eqn:Hab; [ | reflexivity].
    apply ExitCode_eqb_eq in Hab. contradiction.
Qed.

Lemma main_loop_done (iters : list Iteration) (g : Globals) :
  exitCode g <> ExitCode_Success -> main_loop iters g = Some (g, []).
Proof.
  intros H. apply ExitCode_eqb_neq in H. destruct iters; cbn [main_loop]; now rewrite H.
Qed.

Lemma main_loop_step (it : Iteration) (rest : list Iteration) (g : Globals) :
  exitCode g = ExitCode_Success ->
  main_loop (it :: rest) g
  = match main_loop rest (after_iteration it g) with
    | Some (g', t') =>
        Some (g', EventLoop_Run (eventLoop g)
                  :: map in_main (snd (run (dispatched it) g)) ++ t')
    | None => None
    end.
Proof.
  intros H. cbn [main_loop]. rewrite H. cbn [ExitCode_eqb]. unfold after_iteration.
  destruct (run (dispatched it) g) as [g1 t1]. reflexivity.
Qed.

Lemma main_loop_exit (iters : list Iteration) :
  forall (g g' : Globals) (t : list MainCall),
    main_loop iters g = Some (g', t) -> exitCode g' <> ExitCode_Success.
Proof.
  induction iters as [ | it rest IH]; intros g g' t H.
  - cbn [main_loop] in H.
    destruct (ExitCode_eqb (exitCode g) ExitCode_Success) eqn:Hx; [discriminate | ].
    injection H as <- _. now apply ExitCode_eqb_neq.
  - destruct (ExitCode_eqb (exitCode g) ExitCode_Success) eqn:Hx.
    + apply ExitCode_eqb_eq in Hx. rewrite (main_loop_step it rest g Hx) in H.
      destruct (main_loop rest (after_iteration it g)) as [[g2 t2] | ] eqn:Hrest;
        [ | discriminate].
      injection H as <- _. exact (IH _ _ _ Hrest).
    + apply ExitCode_eqb_neq in Hx. rewrite (main_loop_done _ g Hx) in H.
      injection H as <- _. exact Hx.
Qed.

Lemma main_loop_prefix (iters more : list Iteration) :
  forall (g : Globals) (r : Globals * list MainCall),
    main_loop iters g = Some r -> main_loop (iters ++ more) g = Some r.
Proof.
  induction iters as [ | it rest IH]; intros g r H.
  - cbn [main_loop] in H.
    destruct (ExitCode_eqb (exitCode g) ExitCode_Success) eqn:Hx; [discriminate | ].
    apply ExitCode_eqb_neq in Hx. rewrite (main_loop_done _ g Hx). exact H.
  - destruct (ExitCode_eqb (exitCode g) ExitCode_Success) eqn:Hx.
    + apply ExitCode_eqb_eq in Hx. cbn [app].
      rewrite (main_loop_step it rest g Hx) in H.
      rewrite (main_loop_step it (rest ++ more) g Hx).
      destruct (main_loop rest (after_iteration it g)) as [r2 | ] eqn:Hrest;
        [ | discriminate].
      now rewrite (IH _ _ Hrest).
    + apply ExitCode_eqb_neq in Hx. rewrite (main_loop_done _ g Hx) in H.
      now rewrite (main_loop_done _ g Hx).
Qed.

Lemma Close_globals (e : Env) (g : Globals) :
  result_globals (ClosePeripheralsAndHandlers e g) = g.
Proof. apply (Close_calls e g). Qed.

Lemma Init_exitCode (e : Env) (g : Globals) :
  exitCode (result_globals (InitPeripheralsAndHandlers e g)) = exitCode g.
Proof. run_lifecycle. split_on_answers e; reflexivity. Qed.

(** A run of main that got past the arguments and returned. *)
Lemma main_after_parse (me : MainEnv) (iters : list Iteration) (g : Globals) :
  Options_ParseArgs_result me = ExitCode_Success ->
  let r := InitPeripheralsAndHandlers (init_answers me)
             (with_exitCode ExitCode_Success g) in
  main me iters g
  = match main_loop iters (with_exitCode (result_value r) (result_globals r)) with
    | None => None
    | Some (g3, t3) =>
        Some (exitCode g3, g3,
              main_prologue me
              ++ map in_main (result_trace r)
              ++ t3
              ++ map in_main
                   (result_trace (ClosePeripheralsAndHandlers (close_answers me) g3))
              ++ [in_main (Log_Debug (line "Application exiting.") [])])
    end.
Proof.
  intros Hp. cbv zeta. unfold main. rewrite Hp.
  cbn [exitCode with_exitCode ExitCode_eqb negb].
  destruct (main_loop iters _) as [[g3 t3] | ]; [ | reflexivity].
  now rewrite Close_globals.
Qed.

(** X15: when Options_ParseArgs does not return ExitCode_Success, main
    returns that value at once: besides the query of the network state
    and the argument parsing it only logs; no resource is acquired, the
    loop is not entered and the shutdown is not run. *)
Theorem main_returns_at_once_on_bad_arguments :
  forall (me : MainEnv) (iters : list Iteration) (g : Globals),
    Options_ParseArgs_result me <> ExitCode_Success ->
    main me iters g
    = Some (Options_ParseArgs_result me,
            with_exitCode (Options_ParseArgs_result me) g,
            main_prologue me) /\
    forallb is_log (inner_calls (main_prologue me)) = true /\
    filter is_EventLoop_Run (main_prologue me) = [].
Proof.
  intros me iters g Hp. apply ExitCode_eqb_neq in Hp. split; [ | split].
  - unfold main. cbn [exitCode with_exitCode]. now rewrite Hp.
  - unfold main_prologue.
    destruct ((Networking_IsNetworkingReady_result me =? -1)
              || negb (isNetworkingReady me)); reflexivity.
  - unfold main_prologue.
    destruct ((Networking_IsNetworkingReady_result me =? -1)
              || negb (isNetworkingReady me)); reflexivity.
Qed.

Lemma main_returns_at_once_on_bad_arguments_witness :
  main (mkMainEnv 0 true (ExitCode_Other 7) (env_ok 0) (env_ok 0))
       [dispatching [(TimerTick 8192, env_ok 3)]] initial_globals
  = Some (ExitCode_Other 7, with_exitCode (ExitCode_Other 7) initial_globals,
          main_prologue (mkMainEnv 0 true (ExitCode_Other 7) (env_ok 0) (env_ok 0))).
Proof.
  apply (main_returns_at_once_on_bad_arguments
           (mkMainEnv 0 true (ExitCode_Other 7) (env_ok 0) (env_ok 0))
           [dispatching [(TimerTick 8192, env_ok 3)]] initial_globals).
  discriminate.
Defined.

(** X16: main never returns ExitCode_Success.  Whenever it returns, the
    value is the final [exitCode] and it is a failure value: either the
    arguments were rejected, or the loop ended, which it only does once
    [exitCode] is not ExitCode_Success, and the shutdown does not write
    [exitCode]. *)
Theorem main_never_returns_success :
  forall (me : MainEnv) (iters : list Iteration) (g g' : Globals)
         (ec : ExitCode) (t : list MainCall),
    main me iters g = Some (ec, g', t) ->
    ec <> ExitCode_Success /\ exitCode g' = ec.
Proof.
  intros me iters g g' ec t H.
  destruct (ExitCode_eqb (Options_ParseArgs_result me) ExitCode_Success) eqn:Hp.
  - apply ExitCode_eqb_eq in Hp. rewrite (main_after_parse me iters g Hp) in H.
    cbv zeta in H.
    destruct (main_loop iters _) as [[g3 t3] | ] eqn:Hloop; [ | discriminate].
    injection H as <- <- _. split; [ | reflexivity].
    exact (main_loop_exit _ _ _ _ Hloop).
  - unfold main in H. cbn [exitCode with_exitCode] in H. rewrite Hp in H.
    cbn [negb] in H. injection H as <- <- _. split; [ | reflexivity].
    now apply ExitCode_eqb_neq.
Qed.

Lemma main_never_returns_success_witness :
  exists (g' : Globals) (t : list MainCall),
    main main_env_ok
      [dispatching [(RemoteConnectionChanged true, env_ok 0)];
       dispatching [(TerminationSignal 15, env_ok 0)]]
      initial_globals
    = Some (ExitCode_TermHandler_SigTerm, g', t) /\
    ExitCode_TermHandler_SigTerm <> ExitCode_Success /\
    exitCode g' = ExitCode_TermHandler_SigTerm.
Proof.
  eexists. eexists. split.
  - vm_compute. reflexivity.
  - eapply (main_never_returns_success main_env_ok
              [dispatching [(RemoteConnectionChanged true, env_ok 0)];
               dispatching [(TerminationSignal 15, env_ok 0)]]
              initial_globals).
    vm_compute. reflexivity.
Defined.

(** X17: when the startup fails, main does not enter the loop, whatever
    events are pending: it runs the complete shutdown right after the
    startup and returns the startup's failure value. *)
Theorem main_startup_failure_skips_loop_and_shuts_down :
  forall (me : MainEnv) (iters : list Iteration) (g : Globals),
    Options_ParseArgs_result me = ExitCode_Success ->
    let r := InitPeripheralsAndHandlers (init_answers me)
               (with_exitCode ExitCode_Success g) in
    let g2 := with_exitCode (result_value r) (result_globals r) in
    result_value r <> ExitCode_Success ->
    main me iters g
    = Some (result_value r, g2,
            main_prologue me
            ++ map in_main (result_trace r)
            ++ map in_main
                 (result_trace (ClosePeripheralsAndHandlers (close_answers me) g2))
            ++ [in_main (Log_Debug (line "Application exiting.") [])]).
Proof.
  intros me iters g Hp r g2 Hfail. rewrite (main_after_parse me iters g Hp).
  cbv zeta. fold r. fold g2. rewrite (main_loop_done iters g2 Hfail). reflexivity.
Qed.

Lemma main_startup_failure_skips_loop_and_shuts_down_witness :
  let me := mkMainEnv 0 true ExitCode_Success
              (mkEnv 0 0 5 0 0 Cloud_Result_OK Cloud_Result_OK Cloud_Result_OK
                 Cloud_Result_OK 4096 8192 ExitCode_Success 3 (-1) 0 0 0
                 ExitCode_Success)
              (env_ok 0) in
  exists (g' : Globals) (t : list MainCall),
    main me [dispatching [(TimerTick 8192, env_ok 3)]] initial_globals
    = Some (ExitCode_Init_SetBusSpeed, g', t) /\
    filter is_EventLoop_Run t = [] /\
    filter is_close (inner_calls t) = [C_close 3].
Proof.
  cbv zeta. eexists. eexists. split.
  - apply (main_startup_failure_skips_loop_and_shuts_down
             (mkMainEnv 0 true ExitCode_Success
                (mkEnv 0 0 5 0 0 Cloud_Result_OK Cloud_Result_OK Cloud_Result_OK
                   Cloud_Result_OK 4096 8192 ExitCode_Success 3 (-1) 0 0 0
                   ExitCode_Success)
                (env_ok 0))
             [dispatching [(TimerTick 8192, env_ok 3)]] initial_globals).
    + reflexivity.
    + cbn. discriminate.
  - split; reflexivity.
Defined.

(** X18: once main has returned, pending events make no difference: if
    main returns with the loop iterations [iters], it returns the same
    value, globals and calls with any further iterations after them, so
    no handler is dispatched after [exitCode] has stopped the loop. *)
Theorem main_ignores_events_after_exit :
  forall (me : MainEnv) (iters more : list Iteration) (g : Globals)
         (r : ExitCode * Globals * list MainCall),
    main me iters g = Some r -> main me (iters ++ more) g = Some r.
Proof.
  intros me iters more g r H. unfold main in *.
  destruct (negb (ExitCode_eqb
                    (exitCode (with_exitCode (Options_ParseArgs_result me) g))
                    ExitCode_Success)); [exact H | ].
  destruct (main_loop iters _) as [[g3 t3] | ] eqn:Hloop; [ | discriminate].
  now rewrite (main_loop_prefix iters more _ _ Hloop).
Qed.

Lemma main_ignores_events_after_exit_witness :
  exists r : ExitCode * Globals * list MainCall,
    main main_env_ok [dispatching [(TerminationSignal 15, env_ok 0)]] initial_globals
    = Some r /\
    main main_env_ok
      ([dispatching [(TerminationSignal 15, env_ok 0)]]
       ++ [dispatching [(ButtonPress UserInterface_Button_A, env_ok 0)]])
      initial_globals
    = Some r.
Proof.
  eexists. split.
  - vm_compute. reflexivity.
  - apply (main_ignores_events_after_exit main_env_ok
             [dispatching [(TerminationSignal 15, env_ok 0)]]
             [dispatching [(ButtonPress UserInterface_Button_A, env_ok 0)]]
             initial_globals).
    vm_compute. reflexivity.
Defined.

(** X19: a failed EventLoop_Run with [errno == EINTR] is ignored: the
    loop goes on with the globals the dispatched handlers left.  A failed
    EventLoop_Run with any other [errno] records
    ExitCode_Main_EventLoopFail, over whatever a handler recorded during
    that call, and the loop ends without another EventLoop_Run. *)
Theorem event_loop_failure_stops_unless_interrupted :
  forall (evs : list (Event * Env)) (err : Z) (rest : list Iteration) (g : Globals),
    exitCode g = ExitCode_Success ->
    (err = EINTR ->
     main_loop (mkIteration evs EventLoop_Run_Failed err :: rest) g
     = main_loop (mkIteration evs EventLoop_Run_NotFailed err :: rest) g) /\
    (err <> EINTR ->
     main_loop (mkIteration evs EventLoop_Run_Failed err :: rest) g
     = Some (with_exitCode ExitCode_Main_EventLoopFail (fst (run evs g)),
             EventLoop_Run (eventLoop g) :: map in_main (snd (run evs g)))).
Proof.
  intros evs err rest g Hx. split; intros Herr.
  - rewrite !(main_loop_step _ rest g Hx). unfold after_iteration.
    cbn [run_result run_errno dispatched]. subst err. reflexivity.
  - rewrite (main_loop_step _ rest g Hx). unfold after_iteration.
    cbn [run_result run_errno dispatched]. apply Z.eqb_neq in Herr. rewrite Herr.
    cbn [negb]. rewrite main_loop_done by (cbn; discriminate).
    now rewrite app_nil_r.
Qed.

Lemma event_loop_failure_stops_unless_interrupted_witness :
  main_loop [mkIteration [(FatalCondition (ExitCode_Other 3), env_ok 0)]
               EventLoop_Run_Failed 5;
             dispatching [(ButtonPress UserInterface_Button_A, env_ok 0)]]
    initial_globals
  = Some (with_exitCode ExitCode_Main_EventLoopFail initial_globals,
          [EventLoop_Run 0]).
Proof.
  apply (proj2 (event_loop_failure_stops_unless_interrupted
                  [(FatalCondition (ExitCode_Other 3), env_ok 0)] 5
                  [dispatching [(ButtonPress UserInterface_Button_A, env_ok 0)]]
                  initial_globals eq_refl)).
  discriminate.
Defined.

(** X20: the network state queried at the start only decides whether a
    warning is logged: the value main returns, the final globals and all
    calls other than Log_Debug are the same for every answer of
    Networking_IsNetworkingReady. *)
Theorem network_state_only_changes_the_log :
  forall (me : MainEnv) (res : Z) (ready : bool) (iters : list Iteration) (g : Globals),
    match main (with_networking res ready me) iters g, main me iters g with
    | Some (ec1, g1, t1), Some (ec2, g2, t2) =>
        ec1 = ec2 /\ g1 = g2 /\
        without_log (inner_calls t1) = without_log (inner_calls t2) /\
        filter is_EventLoop_Run t1 = filter is_EventLoop_Run t2
    | None, None => True
    | _, _ => False
    end.
Proof.
  intros me res ready iters g. unfold main.
  cbn [with_networking Options_ParseArgs_result init_answers close_answers].
  assert (Hpro : forall me', without_log (inner_calls (main_prologue me')) = []
                             /\ filter is_EventLoop_Run (main_prologue me') = []).
  { intros me'. unfold main_prologue.
    destruct ((Networking_IsNetworkingReady_result me' =? -1)
              || negb (isNetworkingReady me')); now split. }
  assert (Hinner : forall a b, inner_calls (a ++ b) = inner_calls a ++ inner_calls b).
  { induction a as [ | [c | | | ] a IH]; intros b; cbn; now rewrite ?IH. }
  destruct (negb (ExitCode_eqb
                    (exitCode (with_exitCode (Options_ParseArgs_result me) g))
                    ExitCode_Success)).
  - destruct (Hpro me) as [H1 H2], (Hpro (with_networking res ready me)) as [H3 H4].
    repeat split; congruence.
  - destruct (main_loop iters _) as [[g3 t3] | ]; [ | exact I].
    destruct (Hpro me) as [H1 H2], (Hpro (with_networking res ready me)) as [H3 H4].
    repeat split.
    + rewrite !Hinner, !without_log_app, H1, H3. reflexivity.
    + rewrite !filter_app, H2, H4. reflexivity.
Qed.

Lemma run_then_sigterm (evs : list (Event * Env)) (e : Env) (sig : Z) (g : Globals) :
  exitCode (fst (run (evs ++ [(TerminationSignal sig, e)]) g))
  = ExitCode_TermHandler_SigTerm.
Proof. rewrite run_app. reflexivity. Qed.

Lemma main_loop_ends_with (iters : list Iteration) (it : Iteration) :
  (forall g, exitCode (after_iteration it g) <> ExitCode_Success) ->
  forall g, exists r, main_loop (iters ++ [it]) g = Some r.
Proof.
  intros Hit. induction iters as [ | i rest IH]; intros g.
  - destruct (ExitCode_eqb (exitCode g) ExitCode_Success) eqn:Hx.
    + apply ExitCode_eqb_eq in Hx. cbn [app]. rewrite (main_loop_step it [] g Hx).
      rewrite (main_loop_done [] _ (Hit g)). eexists. reflexivity.
    + apply ExitCode_eqb_neq in Hx. rewrite (main_loop_done _ g Hx). eexists. reflexivity.
  - destruct (ExitCode_eqb (exitCode g) ExitCode_Success) eqn:Hx.
    + apply ExitCode_eqb_eq in Hx. cbn [app]. rewrite (main_loop_step i _ g Hx).
      destruct (IH (after_iteration i g)) as [[g' t'] Hr]. rewrite Hr.
      eexists. reflexivity.
    + apply ExitCode_eqb_neq in Hx. rewrite (main_loop_done _ g Hx). eexists. reflexivity.
Qed.

(** X21: SIGTERM ends the program.  If the signal handler is the last
    handler to run during some call of EventLoop_Run, main returns (with
    a failure value, after the shutdown), whatever happened before,
    whatever that EventLoop_Run returns and whatever the external
    functions answer. *)
Theorem sigterm_makes_main_return :
  forall (me : MainEnv) (iters : list Iteration) (evs : list (Event * Env))
         (e : Env) (sig : Z) (res : EventLoop_Run_Result) (err : Z) (g : Globals),
    exists (ec : ExitCode) (g' : Globals) (t : list MainCall),
      main me (iters ++ [mkIteration (evs ++ [(TerminationSignal sig, e)]) res err]) g
      = Some (ec, g', t) /\
      ec <> ExitCode_Success.
Proof.
  intros me iters evs e sig res err g. unfold main.
  destruct (negb (ExitCode_eqb
                    (exitCode (with_exitCode (Options_ParseArgs_result me) g))
                    ExitCode_Success)) eqn:Hp.
  - do 3 eexists. split; [reflexivity | ].
    apply negb_true_iff in Hp. now apply ExitCode_eqb_neq.
  - match goal with
    | |- context [main_loop (?l ++ [?it]) ?g2] =>
        destruct (main_loop_ends_with l it) with (g := g2) as [[g3 t3] Hr]
    end.
    + intros g0. unfold after_iteration. cbn [run_result run_errno dispatched].
      destruct res; [destruct (negb (err =? EINTR)) | ];
        rewrite ?run_then_sigterm; cbn; discriminate.
    + rewrite Hr. do 3 eexists. split; [reflexivity | ].
      rewrite Close_globals. exact (main_loop_exit _ _ _ _ Hr).
Qed.

Lemma pick_app {A B} (f : A -> option B) (l1 l2 : list A) :
  pick f (l1 ++ l2) = pick f l1 ++ pick f l2.
Proof.
  induction l1 as [ | a l1 IH]; [reflexivity | ].
  cbn. destruct (f a); cbn; now rewrite IH.
Qed.

Lemma inner_calls_app (t1 t2 : list MainCall) :
  inner_calls (t1 ++ t2) = inner_calls t1 ++ inner_calls t2.
Proof.
  induction t1 as [ | [c | | | ] t1 IH]; cbn; now rewrite ?IH.
Qed.

Lemma inner_calls_in_main (t : list Call) : inner_calls (map in_main t) = t.
Proof. induction t as [ | c t IH]; cbn; now rewrite ?IH. Qed.

Lemma handle_releases_nothing (ev : Event) (e : Env) (g : Globals) :
  release_order (result_trace (handle ev e g)) = [] /\
  acquisition_order (result_trace (handle ev e g)) = [].
Proof.
  unfold release_order, acquisition_order.
  destruct ev as [timer | [ | | n] | ec | v | msg | c | sig]; run_handler.
  - destruct (ConsumeEventLoopTimerEvent_result e =? 0); cbn; [ | now split].
    destruct (isConnected g); cbn; [ | now split].
    destruct (telemetryUploadEnabled g); cbn; [ | now split].
    destruct (SendTelemetry_result e); now split.
  - destruct (SendUploadEnabledChanged_result e); now split.
  - destruct (SendMoved_result e); now split.
  - now split.
  - now split.
  - destruct (SendUploadEnabledChanged_result e); now split.
  - now split.
  - destruct c; cbn; [ | now split]. destruct (SendDeviceDetails_result e); now split.
  - now split.
Qed.

Lemma run_releases_nothing (evs : list (Event * Env)) :
  forall g, release_order (snd (run evs g)) = [] /\
            acquisition_order (snd (run evs g)) = [].
Proof.
  induction evs as [ | [ev e] evs IH]; intros g.
  - now split.
  - rewrite run_cons. cbn [snd]. unfold release_order, acquisition_order in *.
    rewrite !pick_app.
    destruct (handle_releases_nothing ev e g) as [H1 H2].
    destruct (IH (result_globals (handle ev e g))) as [H3 H4].
    unfold release_order, acquisition_order in *. now rewrite H1, H2, H3, H4.
Qed.

Lemma main_loop_releases_nothing (iters : list Iteration) :
  forall g g' t,
    main_loop iters g = Some (g', t) ->
    release_order (inner_calls t) = [] /\ acquisition_order (inner_calls t) = [] /\
    i2cFd g' = i2cFd g.
Proof.
  induction iters as [ | it rest IH]; intros g g' t H.
  - cbn [main_loop] in H.
    destruct (ExitCode_eqb (exitCode g) ExitCode_Success); [discriminate | ].
    injection H as <- <-. now repeat split.
  - destruct (ExitCode_eqb (exitCode g) ExitCode_Success) eqn:Hx.
    + apply ExitCode_eqb_eq in Hx. rewrite (main_loop_step it rest g Hx) in H.
      destruct (main_loop rest (after_iteration it g)) as [[g2 t2] | ] eqn:Hrest;
        [ | discriminate].
      injection H as <- <-. destruct (IH _ _ _ Hrest) as [H1 [H2 H3]].
      destruct (run_releases_nothing (dispatched it) g) as [H4 H5].
      cbn [inner_calls]. rewrite inner_calls_app, inner_calls_in_main.
      unfold release_order, acquisition_order in *. rewrite !pick_app.
      rewrite H1, H2, H4, H5, H3. repeat split.
      unfold after_iteration.
      destruct (run_result it); [destruct (negb (run_errno it =? EINTR)) | ];
        cbn [i2cFd with_exitCode];
        apply (handlers_keep_i2cFd (dispatched it) g).
    + apply ExitCode_eqb_neq in Hx. rewrite (main_loop_done _ g Hx) in H.
      injection H as <- <-. now repeat split.
Qed.

Lemma Init_releases_nothing (e : Env) (g : Globals) :
  release_order (result_trace (InitPeripheralsAndHandlers e g)) = [].
Proof. run_lifecycle. split_on_answers e; reflexivity. Qed.

Lemma Close_release_order (e : Env) (g : Globals) :
  release_order (result_trace (ClosePeripheralsAndHandlers e g))
  = [Timer; RemoteSyncChannel; ButtonUI; Connection; DispatchLoop]
    ++ (if i2cFd g >=? 0 then [Sensor] else []).
Proof.
  run_lifecycle. destruct (i2cFd g >=? 0); cbn; [ | reflexivity].
  destruct (close_result e =? 0); reflexivity.
Qed.

Lemma prologue_releases_nothing (me : MainEnv) :
  release_order (inner_calls (main_prologue me)) = [].
Proof.
  unfold main_prologue.
  destruct ((Networking_IsNetworkingReady_result me =? -1)
            || negb (isNetworkingReady me)); reflexivity.
Qed.

(** X22: whenever main returns after the arguments were accepted, the
    release calls of its whole run are exactly those of one shutdown, in
    the order timer, cloud, user interface, connection, event loop and
    then the I2C descriptor if it is non-negative: the startup and the
    handlers release nothing, and the shutdown is run once however the
    loop came to its end.  The last call is the log line that announces
    the exit. *)
Theorem main_releases_once_at_exit :
  forall (me : MainEnv) (iters : list Iteration) (g g' : Globals)
         (ec : ExitCode) (t : list MainCall),
    Options_ParseArgs_result me = ExitCode_Success ->
    main me iters g = Some (ec, g', t) ->
    release_order (inner_calls t)
    = [Timer; RemoteSyncChannel; ButtonUI; Connection; DispatchLoop]
      ++ (if i2cFd g' >=? 0 then [Sensor] else []) /\
    last t Options_ParseArgs
    = in_main (Log_Debug (line "Application exiting.") []).
Proof.
  intros me iters g g' ec t Hp H. rewrite (main_after_parse me iters g Hp) in H.
  cbv zeta in H.
  destruct (main_loop iters _) as [[g3 t3] | ] eqn:Hloop; [ | discriminate].
  pose proof (prologue_releases_nothing me) as Hpro.
  remember (main_prologue me) as pro eqn:Epro.
  remember (InitPeripheralsAndHandlers (init_answers me)
              (with_exitCode ExitCode_Success g)) as r eqn:Er.
  remember (ClosePeripheralsAndHandlers (close_answers me) g3) as c eqn:Ec.
  injection H as <- <- <-. split.
  - destruct (main_loop_releases_nothing _ _ _ _ Hloop) as [H1 _].
    pose proof (Init_releases_nothing (init_answers me)
                  (with_exitCode ExitCode_Success g)) as H2.
    pose proof (Close_release_order (close_answers me) g3) as H3.
    rewrite <- Er in H2. rewrite <- Ec in H3.
    rewrite !inner_calls_app, !inner_calls_in_main. unfold release_order in *.
    rewrite !pick_app, Hpro, H1, H2, H3. cbn [app inner_calls pick released].
    now rewrite app_nil_r.
  - rewrite !app_assoc. apply last_last.
Qed.

Lemma main_releases_once_at_exit_witness :
  exists (g' : Globals) (t : list MainCall),
    main main_env_ok
      [dispatching [(RemoteConnectionChanged true, env_ok 0)];
       dispatching [(ButtonPress UserInterface_Button_A, env_ok 0)];
       dispatching [(TimerTick 8192, env_ok 27)];
       dispatching [(TerminationSignal 15, env_ok 0)]]
      initial_globals
    = Some (ExitCode_TermHandler_SigTerm, g', t) /\
    release_order (inner_calls t)
    = [Timer; RemoteSyncChannel; ButtonUI; Connection; DispatchLoop]
      ++ (if i2cFd g' >=? 0 then [Sensor] else []).
Proof.
  eexists. eexists. split.
  - vm_compute. reflexivity.
  - eapply (main_releases_once_at_exit main_env_ok
              [dispatching [(RemoteConnectionChanged true, env_ok 0)];
               dispatching [(ButtonPress UserInterface_Button_A, env_ok 0)];
               dispatching [(TimerTick 8192, env_ok 27)];
               dispatching [(TerminationSignal 15, env_ok 0)]]
              initial_globals).
    + reflexivity.
    + vm_compute. reflexivity.
Defined.

(** * Further properties of the simulated temperature *)

Lemma residue_pairs_checked :
  forallb (fun k => forallb (fun k' => implb (k <? k') (residue_delta_lt k k'))
                      residues) residues = true.
Proof. vm_compute. reflexivity. Qed.

(** X23: the simulated delta depends on rand() only through
    [rand() % 41] and grows strictly with that residue in the float
    order, so it takes 41 different values. *)
Theorem simulated_delta_increases_with_residue :
  forall r r' : Z,
    0 <= r -> 0 <= r' ->
    (Z.rem r 41 = Z.rem r' 41 -> simulated_delta r = simulated_delta r') /\
    (Z.rem r 41 < Z.rem r' 41 ->
     F32.ltb (simulated_delta r) (simulated_delta r') = true) /\
    simulated_delta (r + 41) = simulated_delta r.
Proof.
  intros r r' Hr Hr'. split; [ | split].
  - intros H. unfold simulated_delta. now rewrite H.
  - intros Hlt. pose proof residue_pairs_checked as H.
    rewrite forallb_forall in H. specialize (H _ (residue_in_residues r Hr)).
    rewrite forallb_forall in H. specialize (H _ (residue_in_residues r' Hr')).
    apply Z.ltb_lt in Hlt. rewrite Hlt in H. exact H.
  - unfold simulated_delta. f_equal. f_equal. f_equal.
    rewrite !Z.rem_mod_nonneg by lia.
    replace (r + 41) with (r + 1 * 41) by lia. apply Z.mod_add. lia.
Qed.

Lemma simulated_delta_increases_with_residue_witness :
  F32.ltb (simulated_delta 1000) (simulated_delta 2000) = true.
Proof.
  apply (simulated_delta_increases_with_residue 1000 2000); [lia | lia | ].
  vm_compute. reflexivity.
Defined.

(** * The warning of a failed send *)

(** X24: a failed send adds exactly one call to what the handler does
    when the send succeeds: a final Log_Debug warning whose argument is
    the text of the result.  The texts of the three results differ, so
    the line tells NoNetwork from OtherFailure.  A handler that makes no
    send, or whose send returns OK, logs no warning. *)
Theorem failed_send_adds_one_warning_naming_the_result :
  (forall (ev : Event) (e : Env) (g : Globals),
     let t := result_trace (handle ev e g) in
     t = result_trace (handle ev (with_sends_ok e) g)
         ++ (if (0 <? count is_cloud_send t)%nat
                && negb (Cloud_Result_eqb (send_answer ev e) Cloud_Result_OK)
             then [Log_Debug (send_warning ev)
                     [LogStr (CloudResultToString (send_answer ev e))]]
             else [])) /\
  (forall a b : Cloud_Result,
     CloudResultToString a = CloudResultToString b -> a = b).
Proof.
  split.
  - intros ev e g. cbv zeta.
    destruct ev as [timer | [ | | n] | ec | v | msg | c | sig]; run_handler;
      cbn [with_sends_ok with_send_results ConsumeEventLoopTimerEvent_result
           SendTelemetry_result SendUploadEnabledChanged_result SendMoved_result
           SendDeviceDetails_result time_result rand_result send_answer send_warning].
    + destruct (ConsumeEventLoopTimerEvent_result e =? 0); cbn; [ | reflexivity].
      destruct (isConnected g); cbn; [ | reflexivity].
      destruct (telemetryUploadEnabled g); cbn.
      * destruct (SendTelemetry_result e); reflexivity.
      * destruct (SendTelemetry_result e); reflexivity.
    + destruct (SendUploadEnabledChanged_result e); reflexivity.
    + destruct (SendMoved_result e); reflexivity.
    + reflexivity.
    + reflexivity.
    + destruct (SendUploadEnabledChanged_result e); reflexivity.
    + reflexivity.
    + destruct c; cbn; [ | reflexivity]. destruct (SendDeviceDetails_result e); reflexivity.
    + reflexivity.
  - intros a b. destruct a, b; cbn; intros H; try reflexivity; discriminate H.
Qed.

Lemma failed_send_adds_one_warning_naming_the_result_witness :
  CloudResultToString Cloud_Result_NoNetwork = "No network connection available" /\
  Cloud_Result_NoNetwork = Cloud_Result_NoNetwork.
Proof.
  split; [reflexivity | ].
  apply (proj2 failed_send_adds_one_warning_naming_the_result
           Cloud_Result_NoNetwork Cloud_Result_NoNetwork).
  reflexivity.
Defined.
